(** * End-effector trajectories of [paths/trajectories.py]

    A shallow embedding of the three trajectory classes
    ([LinearTrajectory], [CircularTrajectory], [PolygonalTrajectory]) and
    the properties of their constructors and of their two queries,
    [target_pose] and [target_velocity].

    Number model.  The Python code computes with floats (its docstrings
    type every time as [float]) and with numpy arrays of floats.  Here a
    float is a real number of [R] and an array of three floats is a
    [vec3]: rounding, infinities, NaN and the range of the floats are
    not represented (Python's [**] raises [OverflowError] on a result
    beyond that range, and a square below it is 0.0).  The other
    place where this matters for control flow is a division by zero:
    dividing a numpy array by zero raises nothing (numpy warns and
    yields inf/nan), dividing a Python float by zero raises
    [ZeroDivisionError].  The first is a total operation below, the
    second is [py_div].

    Positions are numpy arrays of three floats, durations and times are
    Python floats, as the docstrings say.  The [print] of
    [CircularTrajectory.target_pose] writes to the standard output and
    changes nothing in the value returned; it is left out. *)

From Stdlib Require Import Reals Lra List Arith Lia.
From Stdlib Require String.
Import ListNotations.
Open Scope R_scope.

(** ** Exceptions and Python indexing *)

(** The exceptions the modelled code can raise. *)
Inductive exn : Type :=
| IndexError
| ZeroDivisionError.

Definition result (A : Type) : Type := (exn + A)%type.

Definition ret {A : Type} (a : A) : result A := inr a.

Definition bind {A B : Type} (m : result A) (k : A -> result B) : result B :=
  match m with
  | inl e => inl e
  | inr a => k a
  end.

Notation "x <- m ;; k" := (bind m (fun x => k))
  (at level 61, m at next level, right associativity).

(** [l[i]] for a non-negative [i]. *)
Definition index {A : Type} (l : list A) (i : nat) : result A :=
  match nth_error l i with
  | Some a => inr a
  | None => inl IndexError
  end.

(** [a / b] on Python floats. *)
Definition py_div (a b : R) : result R :=
  if Req_dec_T b 0 then inl ZeroDivisionError else inr (a / b).

(** ** Arrays of three floats *)

Record vec3 : Type := Vec3 { vx : R; vy : R; vz : R }.

Definition vadd (u v : vec3) : vec3 := Vec3 (vx u + vx v) (vy u + vy v) (vz u + vz v).
Definition vsub (u v : vec3) : vec3 := Vec3 (vx u - vx v) (vy u - vy v) (vz u - vz v).
(** scalar on the left, [k * v] *)
Definition smul (k : R) (v : vec3) : vec3 := Vec3 (k * vx v) (k * vy v) (k * vz v).
(** scalar on the right, [v * k] *)
Definition vmul (v : vec3) (k : R) : vec3 := Vec3 (vx v * k) (vy v * k) (vz v * k).
(** [v / k]; numpy raises nothing when [k] is zero *)
Definition vdiv (v : vec3) (k : R) : vec3 := Vec3 (vx v / k) (vy v / k) (vz v / k).

Declare Scope vec_scope.
Delimit Scope vec_scope with V.
Bind Scope vec_scope with vec3.
Notation "u +: v" := (vadd u v) (at level 50, left associativity) : vec_scope.
Notation "u -: v" := (vsub u v) (at level 50, left associativity) : vec_scope.
Notation "k *: v" := (smul k v) (at level 40, left associativity) : vec_scope.
Notation "v :* k" := (vmul v k) (at level 40, left associativity) : vec_scope.
Notation "v :/ k" := (vdiv v k) (at level 40, left associativity) : vec_scope.
Open Scope vec_scope.

Definition to_list (v : vec3) : list R := [vx v; vy v; vz v].

(** [np.hstack((v, w))] for a 3-array [v] and a flat array [w]. *)
Definition hstack (v : vec3) (w : list R) : list R := to_list v ++ w.

(** [np.zeros(3)] *)
Definition zeros3 : list R := [0; 0; 0].

(** [pose[:3]] and [pose[3:]] *)
Definition position (pose : list R) : list R := firstn 3 pose.
Definition orientation (pose : list R) : list R := skipn 3 pose.
Definition linear_part (twist : list R) : list R := firstn 3 twist.
Definition angular_part (twist : list R) : list R := skipn 3 twist.

(** ** LinearTrajectory *)

Module LinearTrajectory.

Record t : Type := Build {
  total_time : R;
  start_position : vec3;
  goal_position : vec3;
  distance : vec3;
  acceleration : vec3;
  v_max : vec3;
  desired_orientation : list R
}.

(** [Trajectory.__init__] followed by [create_route]; nothing in them
    can raise on numbers in the range of the floats. *)
Definition create_route (start_position goal_position : vec3) (total_time : R) : t :=
  let distance := goal_position -: start_position in
  let acceleration := (distance :* 4.0) :/ (total_time ^ 2) in
  let v_max := (total_time / 2.0) *: acceleration in
  Build total_time start_position goal_position distance acceleration v_max
        [0; 1; 0; 0].

Definition init (start_position goal_position : vec3) (total_time : R) : t :=
  create_route start_position goal_position total_time.

Definition target_pose (self : t) (time : R) : list R :=
  let pos :=
    if Rle_dec time (total_time self / 2.0) then
      start_position self +: (0.5 *: acceleration self) :* time ^ 2
    else
      let first_half :=
        start_position self +: (0.5 *: acceleration self) :* (total_time self / 2.0) ^ 2 in
      let time_remaining := time - total_time self / 2.0 in
      let dec :=
        v_max self :* time_remaining
        -: (0.5 *: acceleration self) :* time_remaining ^ 2 in
      first_half +: dec
  in
  hstack pos (desired_orientation self).

Definition target_velocity (self : t) (time : R) : list R :=
  let linear_vel :=
    if Rle_dec time (total_time self / 2.0) then
      acceleration self :* time
    else
      v_max self -: acceleration self :* (time - total_time self / 2.0)
  in
  hstack linear_vel zeros3.

End LinearTrajectory.

(** ** CircularTrajectory *)

Module CircularTrajectory.

Record t : Type := Build {
  total_time : R;
  center_position : vec3;
  radius : R;
  angular_acceleration : R;
  angular_v_max : R;
  desired_orientation : list R
}.

(** [2 * np.pi * 4.0] is a Python float, so its division by
    [total_time ** 2] raises when that is zero. *)
Definition init (center_position : vec3) (radius total_time : R) : result t :=
  angular_acceleration <- py_div (2 * PI * 4.0) (total_time ^ 2) ;;
  let angular_v_max := (total_time / 2.0) * angular_acceleration in
  ret (Build total_time center_position radius angular_acceleration angular_v_max
             [0; 1; 0; 0]).

(** The local [theta] of [target_pose] and [target_velocity] (the same
    code in both). *)
Definition theta (self : t) (time : R) : R :=
  if Rle_dec time (total_time self / 2.0) then
    0.5 * angular_acceleration self * time ^ 2
  else
    let time_left := time - total_time self / 2.0 in
    PI + angular_v_max self * time_left
    - 0.5 * angular_acceleration self * time_left ^ 2.

(** The local [theta_dot] of [target_velocity]. *)
Definition theta_dot (self : t) (time : R) : R :=
  if Rle_dec time (total_time self / 2.0) then
    angular_acceleration self * time
  else
    let time_remaining := time - total_time self / 2.0 in
    angular_v_max self - angular_acceleration self * time_remaining.

Definition target_pose (self : t) (time : R) : list R :=
  let theta := theta self time in
  let pos_d :=
    center_position self +: radius self *: Vec3 (cos theta) (sin theta) 0 in
  hstack pos_d (desired_orientation self).

Definition target_velocity (self : t) (time : R) : list R :=
  let theta := theta self time in
  let theta_dot := theta_dot self time in
  let vel_d := (radius self * theta_dot) *: Vec3 (- sin theta) (cos theta) 0 in
  hstack vel_d zeros3.

End CircularTrajectory.

(** ** PolygonalTrajectory *)

Module PolygonalTrajectory.

Record t : Type := Build {
  total_time : R;
  trajectories : list LinearTrajectory.t
}.

(** The body of the constructor's [for i in range(4)] loop, run over
    the indices [range]; the state is the list built so far and
    [current_position]. *)
Fixpoint init_loop (ar_position : vec3) (points : list vec3) (total_time : R)
    (range : list nat) (trajectories : list LinearTrajectory.t)
    (current_position : vec3) : result (list LinearTrajectory.t) :=
  match range with
  | [] => ret trajectories
  | i :: range' =>
      p <- index points i ;;
      let target_position := ar_position +: p in
      init_loop ar_position points total_time range'
        (trajectories
           ++ [LinearTrajectory.init current_position target_position (total_time / 4)])
        target_position
  end.

Definition init (start_position ar_position : vec3) (points : list vec3)
    (total_time : R) : result t :=
  trajectories <-
    init_loop ar_position points total_time (seq 0 4) [] start_position ;;
  ret (Build total_time trajectories).

(** The selection loop shared by both queries: [trajectory] is the
    value of the local variable when the loop starts. *)
Fixpoint select_loop (self : t) (time : R) (range : list nat)
    (trajectory : LinearTrajectory.t) : result LinearTrajectory.t :=
  match range with
  | [] => ret trajectory
  | i :: range' =>
      if Rle_dec time ((INR i + 1) * total_time self / 4) then
        index (trajectories self) i
      else
        select_loop self time range' trajectory
  end.

Definition select (self : t) (time : R) : result LinearTrajectory.t :=
  trajectory <- index (trajectories self) 0 ;;
  select_loop self time (seq 0 4) trajectory.

Definition target_pose (self : t) (time : R) : result (list R) :=
  trajectory <- select self time ;;
  ret (LinearTrajectory.target_pose trajectory (time / 4)).

Definition target_velocity (self : t) (time : R) : result (list R) :=
  trajectory <- select self time ;;
  ret (LinearTrajectory.target_velocity trajectory (time / 4)).

End PolygonalTrajectory.

(** ** Auxiliary definitions of the specification *)

(** The four segments the constructor builds from the first four
    points. *)
Definition chained_segments (start_position ar_position : vec3) (total_time : R)
    (p0 p1 p2 p3 : vec3) : list LinearTrajectory.t :=
  let d := total_time / 4 in
  [ LinearTrajectory.init start_position (ar_position +: p0) d;
    LinearTrajectory.init (ar_position +: p0) (ar_position +: p1) d;
    LinearTrajectory.init (ar_position +: p1) (ar_position +: p2) d;
    LinearTrajectory.init (ar_position +: p2) (ar_position +: p3) d ].

(** The test of the selection loop, as a boolean. *)
Definition in_window (self : PolygonalTrajectory.t) (time : R) (i : nat) : bool :=
  if Rle_dec time ((INR i + 1) * PolygonalTrajectory.total_time self / 4)
  then true else false.

(** The array a query returned, [[]] when it raised. *)
Definition unwrap (r : result (list R)) : list R :=
  match r with
  | inr v => v
  | inl _ => []
  end.

(** The three axes of an array. *)
Definition axis (k : nat) (v : vec3) : R := nth k (to_list v) 0.

(** A function given by one formula up to [a] and by another after. *)
Definition piecewise (f1 f2 : R -> R) (a t : R) : R :=
  if Rle_dec t a then f1 t else f2 t.

(** The triangular velocity profile on one axis: constant acceleration
    [acc] from [s] up to the time [a], then from [mid] with initial
    speed [vmax] and the opposite acceleration. *)
Definition profile_pos (s mid acc vmax a : R) : R -> R :=
  piecewise (fun t => s + 0.5 * acc * t ^ 2)
            (fun t => mid + vmax * (t - a) - 0.5 * acc * (t - a) ^ 2) a.

Definition profile_vel (acc vmax a : R) : R -> R :=
  piecewise (fun t => acc * t) (fun t => vmax - acc * (t - a)) a.

(** A square of offsets in the manner of [follow_ar.py], and the
    polygonal trajectory built from it at the origin over a duration
    of 4. *)
Definition origin : vec3 := Vec3 0 0 0.

Definition square : list vec3 :=
  [Vec3 1 0 0; Vec3 1 1 0; Vec3 0 1 0; Vec3 0 0 0].

Definition square_trajectory : PolygonalTrajectory.t :=
  PolygonalTrajectory.Build 4
    (chained_segments origin origin 4 (Vec3 1 0 0) (Vec3 1 1 0) (Vec3 0 1 0) (Vec3 0 0 0)).

(** ** The callers of the trajectories

    [Trajectory.target_joint_velocities] and the sampling that opens
    [Trajectory.display_trajectory] in [trajectories.py], and the choice
    of a trajectory in [get_trajectory] of [follow_ar.py].  They raise
    two exceptions more than the trajectories do. *)

Inductive caller_exn : Type :=
| FromTrajectory (e : exn)
| ValueError
| TypeError.

Definition caller_result (A : Type) : Type := (caller_exn + A)%type.

(** A call into the trajectory classes from a caller. *)
Definition lift {A : Type} (m : result A) : caller_result A :=
  match m with
  | inl e => inl (FromTrajectory e)
  | inr a => inr a
  end.

Definition cbind {A B : Type} (m : caller_result A) (k : A -> caller_result B)
    : caller_result B :=
  match m with
  | inl e => inl e
  | inr a => k a
  end.

(** [[f(x) for x in l]] where [f] may raise: the first exception ends
    the comprehension. *)
Fixpoint comprehension {A B : Type} (f : A -> result B) (l : list A)
    : result (list B) :=
  match l with
  | [] => ret []
  | x :: l' =>
      y <- f x ;;
      ys <- comprehension f l' ;;
      ret (y :: ys)
  end.

(** [np.linspace(start, stop, num=num)] for a non-negative [num]: [num]
    values [start + i*step] with [step = (stop - start)/(num - 1)], the
    last one set to [stop]; the single value [start] when [num] is 1. *)
Definition linspace (start stop : R) (num : nat) : list R :=
  match num with
  | O => []
  | S O => [start]
  | S (S n as div) =>
      let step := (stop - start) / INR div in
      map (fun i => INR i * step + start) (seq 0 div) ++ [stop]
  end.

(** [np.vstack(rows)]: the rows themselves; numpy raises [ValueError] on
    an empty list of rows. *)
Definition vstack (rows : list (list R)) : caller_result (list (list R)) :=
  match rows with
  | [] => inl ValueError
  | _ => inr rows
  end.

(** [a - b] on two flat numpy arrays: componentwise when the lengths
    agree, an array of length 1 is broadcast, other lengths raise
    [ValueError]. *)
Definition np_sub (a b : list R) : caller_result (list R) :=
  if Nat.eqb (length a) (length b) then
    inr (map (fun xy => fst xy - snd xy) (combine a b))
  else
    match a, b with
    | [x], _ => inr (map (fun y => x - y) b)
    | _, [y] => inr (map (fun x => x - y) a)
    | _, _ => inl ValueError
    end.

Module Trajectory.

(** An object of one of the three subclasses of [Trajectory]; a method
    call on it runs the method of its class. *)
Inductive t : Type :=
| Linear (self : LinearTrajectory.t)
| Circular (self : CircularTrajectory.t)
| Polygonal (self : PolygonalTrajectory.t).

Definition total_time (self : t) : R :=
  match self with
  | Linear l => LinearTrajectory.total_time l
  | Circular c => CircularTrajectory.total_time c
  | Polygonal p => PolygonalTrajectory.total_time p
  end.

Definition target_pose (self : t) (time : R) : result (list R) :=
  match self with
  | Linear l => ret (LinearTrajectory.target_pose l time)
  | Circular c => ret (CircularTrajectory.target_pose c time)
  | Polygonal p => PolygonalTrajectory.target_pose p time
  end.

Definition target_velocity (self : t) (time : R) : result (list R) :=
  match self with
  | Linear l => ret (LinearTrajectory.target_velocity l time)
  | Circular c => ret (CircularTrajectory.target_velocity c time)
  | Polygonal p => PolygonalTrajectory.target_velocity p time
  end.

(** [kin.inverse_kinematics(position, orientation=None)] is the solver
    of [sawyer_pykdl], taken as the parameter [inverse_kinematics]: it
    returns an array of joint positions, or [None] when it finds no
    solution.  Subtracting an array from [None] raises [TypeError]. *)
Definition target_joint_velocities (self : t)
    (inverse_kinematics : list R -> option (list R))
    (current_joint_positions : list R) (time : R) : caller_result (list R) :=
  cbind (lift (target_pose self time)) (fun target_pose =>
  match inverse_kinematics (firstn 3 target_pose) with
  | Some target_joint_positions =>
      np_sub target_joint_positions current_joint_positions
  | None => inl TypeError
  end).

(** The first three statements of [display_trajectory]: the sampling
    times and the arrays of sampled positions and velocities that the
    rest of the method plots. *)
Definition times (self : t) (num_waypoints : nat) : list R :=
  linspace 0 (total_time self) num_waypoints.

Definition target_positions (self : t) (num_waypoints : nat)
    : caller_result (list (list R)) :=
  cbind (lift (comprehension
                 (fun t => pose <- target_pose self t ;; ret (firstn 3 pose))
                 (times self num_waypoints)))
        vstack.

Definition target_velocities (self : t) (num_waypoints : nat)
    : caller_result (list (list R)) :=
  cbind (lift (comprehension
                 (fun t => twist <- target_velocity self t ;; ret (firstn 3 twist))
                 (times self num_waypoints)))
        vstack.

End Trajectory.

Module FollowAr.

Import String.

(** What [get_trajectory] itself can raise: an exception of the
    constructors or its own [ValueError], and the [UnboundLocalError]
    (a [NameError]) of reading [trans] when the lookup that assigns it
    has failed. *)
Inductive script_exn : Type :=
| Raised (e : caller_exn)
| UnboundLocalError.

(** The offsets of the polygon of [get_trajectory]. *)
Definition points : list vec3 :=
  [Vec3 0 0 0; Vec3 0.2 0.2 0; Vec3 0.2 (-0.2) 0; Vec3 0 0 0].

(** The [if] chain of [get_trajectory] on [task]. *)
Definition task_trajectory (task : string) (current_position target_position : vec3)
    : caller_result Trajectory.t :=
  if String.eqb task "line" then
    inr (Trajectory.Linear
           (LinearTrajectory.init current_position target_position 3))
  else if String.eqb task "circle" then
    cbind (lift (CircularTrajectory.init target_position 0.1 7))
          (fun trajectory => inr (Trajectory.Circular trajectory))
  else if String.eqb task "polygon" then
    cbind (lift (PolygonalTrajectory.init current_position target_position points 12))
          (fun trajectory => inr (Trajectory.Polygonal trajectory))
  else
    inl ValueError.

(** [get_trajectory(limb, kin, ik_solver, tag_pos, args)].

    [lookup_transform] is the outcome of the transform lookup of the
    gripper tip: [Some] of the translation found, [None] when the lookup
    raised; the exception is caught and printed, and the next statement
    reads the unassigned [trans].  [to_robot_trajectory trajectory
    num_way jointspace] stands for
    [MotionPath(limb, kin, ik_solver, trajectory).to_robot_trajectory(num_way, jointspace)],
    of [paths.py]: the function returns what it returns.

    The array [tag_pos] is the caller's and its height is overwritten
    before anything else.  The first component of the result is
    [tag_pos] when the function ends, by a return or by an exception;
    the second is the value returned or the exception. *)
Definition get_trajectory {B : Type}
    (to_robot_trajectory : Trajectory.t -> Z -> bool -> B)
    (lookup_transform : option vec3) (tag_pos : vec3)
    (task : string) (num_way : Z) (controller_name : string)
    : vec3 * (script_exn + B) :=
  let target_position := Vec3 (vx tag_pos) (vy tag_pos) 0.3 in
  (target_position,
   match lookup_transform with
   | None => inl UnboundLocalError
   | Some current_position =>
       match task_trajectory task current_position target_position with
       | inl e => inl (Raised e)
       | inr trajectory =>
           inr (to_robot_trajectory trajectory num_way
                  (negb (String.eqb controller_name "workspace")))
       end
   end).

End FollowAr.

(** ** Auxiliary definitions for the properties of the profile *)

(** The fraction of the way a triangular profile of duration [T] has
    covered at time [t]. *)
Definition progress (T t : R) : R :=
  if Rle_dec t (T / 2) then 2 * (t / T) ^ 2 else 1 - 2 * (1 - t / T) ^ 2.

(** [pose[:3]] as an array of three floats. *)
Definition pos3 (pose : list R) : vec3 :=
  Vec3 (nth 0 pose 0) (nth 1 pose 0) (nth 2 pose 0).

Definition dot (u v : vec3) : R := vx u * vx v + vy u * vy v + vz u * vz v.

(** A duration whose square is in the range of the floats: Python's
    [total_time ** 2] raises [OverflowError] when it is above about
    1.3e154 in magnitude and gives 0.0 when it is below about 2e-162. *)
Definition representable_square (T : R) : Prop :=
  / 10 ^ 150 <= Rabs T <= 10 ^ 150.

(** The objects the three constructors return. *)
Inductive constructed : Trajectory.t -> Prop :=
| constructed_linear (start_position goal_position : vec3) (total_time : R) :
    constructed
      (Trajectory.Linear (LinearTrajectory.init start_position goal_position total_time))
| constructed_circular (center_position : vec3) (radius total_time : R)
    (self : CircularTrajectory.t) :
    CircularTrajectory.init center_position radius total_time = inr self ->
    constructed (Trajectory.Circular self)
| constructed_polygonal (start_position ar_position : vec3) (points : list vec3)
    (total_time : R) (self : PolygonalTrajectory.t) :
    PolygonalTrajectory.init start_position ar_position points total_time = inr self ->
    constructed (Trajectory.Polygonal self).

(** * Properties *)

(** ** Construction of a PolygonalTrajectory *)

Section PolygonalConstruction.

Import PolygonalTrajectory.

Variables (start_position ar_position : vec3) (total_time : R).

Lemma init_four (p0 p1 p2 p3 : vec3) (rest : list vec3) :
  init start_position ar_position (p0 :: p1 :: p2 :: p3 :: rest) total_time
  = inr (Build total_time (chained_segments start_position ar_position total_time p0 p1 p2 p3)).
Proof. reflexivity. Qed.

Lemma init_short (points : list vec3) :
  (length points < 4)%nat ->
  init start_position ar_position points total_time = inl IndexError.
Proof.
  intros Hlen.
  destruct points as [|p0 [|p1 [|p2 [|p3 rest]]]]; try reflexivity.
  simpl in Hlen; lia.
Qed.

(** A successful construction had at least four points and yields the
    four chained segments. *)
Lemma init_inv (points : list vec3) (self : t) :
  init start_position ar_position points total_time = inr self ->
  exists p0 p1 p2 p3 rest,
    points = p0 :: p1 :: p2 :: p3 :: rest /\
    self = Build total_time
             (chained_segments start_position ar_position total_time p0 p1 p2 p3).
Proof.
  intros Hinit.
  destruct points as [|p0 [|p1 [|p2 [|p3 rest]]]]; try discriminate Hinit.
  rewrite init_four in Hinit. injection Hinit as <-.
  now exists p0, p1, p2, p3, rest.
Qed.

End PolygonalConstruction.

(** ** Segment selection *)

Section Selection.

Import PolygonalTrajectory.

Lemma in_window_true self time i :
  in_window self time i = true <-> time <= (INR i + 1) * total_time self / 4.
Proof.
  unfold in_window. destruct (Rle_dec _ _); split; intros; try easy.
Qed.

(** The loop returns the segment of the first index whose test
    succeeds, and the initial value of [trajectory] when none does. *)
Lemma select_loop_find self time range trajectory :
  select_loop self time range trajectory =
  match find (in_window self time) range with
  | Some i => index (trajectories self) i
  | None => inr trajectory
  end.
Proof.
  induction range as [|i range IH]; simpl; [reflexivity|].
  unfold in_window at 1.
  destruct (Rle_dec _ _); [reflexivity | exact IH].
Qed.

Lemma window_bound_mono (T : R) (i j : nat) :
  0 <= T -> (i <= j)%nat -> (INR i + 1) * T / 4 <= (INR j + 1) * T / 4.
Proof.
  intros HT Hij. apply le_INR in Hij. nra.
Qed.

(** For a query time in [[0, T]] some index below four passes the
    test. *)
Lemma find_in_range self time :
  0 <= time <= total_time self ->
  exists i, find (in_window self time) (seq 0 4) = Some i
    /\ (i < 4)%nat
    /\ time <= (INR i + 1) * total_time self / 4
    /\ (forall j, (j < i)%nat -> ~ time <= (INR j + 1) * total_time self / 4).
Proof.
  intros [H0 HT].
  assert (Hlast : in_window self time 3 = true).
  { apply in_window_true. simpl. lra. }
  destruct (find (in_window self time) (seq 0 4)) as [i|] eqn:Hfind.
  - exists i. split; [reflexivity|].
    pose proof (find_some _ _ Hfind) as [Hin Hwin].
    apply in_seq in Hin. apply in_window_true in Hwin.
    split; [lia|]. split; [exact Hwin|].
    intros j Hj Hle. apply in_window_true in Hle.
    revert Hfind Hle Hj. clear.
    simpl.
    destruct (in_window self time 0) eqn:E0.
    { intros [= <-]. lia. }
    destruct (in_window self time 1) eqn:E1.
    { intros [= <-] Hle Hj. assert (j = 0)%nat by lia. congruence. }
    destruct (in_window self time 2) eqn:E2.
    { intros [= <-] Hle Hj.
      assert (j = 0 \/ j = 1)%nat as [-> | ->] by lia; congruence. }
    destruct (in_window self time 3) eqn:E3; [|discriminate].
    intros [= <-] Hle Hj.
    assert (j = 0 \/ j = 1 \/ j = 2)%nat as [-> | [-> | ->]] by lia; congruence.
  - exfalso.
    pose proof (find_none _ _ Hfind 3%nat) as Hn.
    rewrite Hn in Hlast; [discriminate|].
    apply in_seq. lia.
Qed.

(** Past the end of a trajectory of non-negative duration no index
    passes the test. *)
Lemma find_past_end self time :
  0 <= total_time self -> total_time self < time ->
  find (in_window self time) (seq 0 4) = None.
Proof.
  intros HT Ht.
  assert (Hno : forall i, (i < 4)%nat -> in_window self time i = false).
  { intros i Hi. destruct (in_window self time i) eqn:E; [|reflexivity].
    apply in_window_true in E.
    pose proof (window_bound_mono (total_time self) i 3 HT ltac:(lia)) as Hm.
    simpl in Hm. lra. }
  simpl. rewrite !Hno by lia. reflexivity.
Qed.

(** With a negative duration the bounds decrease with the index, so
    only index 0 can be the first to pass. *)
Lemma find_negative_duration self time :
  total_time self < 0 ->
  find (in_window self time) (seq 0 4) = Some 0%nat
  \/ find (in_window self time) (seq 0 4) = None.
Proof.
  intros HT. simpl.
  destruct (in_window self time 0) eqn:E0; [now left|].
  assert (Hno : forall i, (i < 4)%nat -> in_window self time i = false).
  { intros i Hi. destruct (in_window self time i) eqn:E; [|reflexivity].
    apply in_window_true in E.
    assert (H0 : ~ time <= (INR 0 + 1) * total_time self / 4).
    { intros H. apply in_window_true in H. congruence. }
    exfalso. apply H0.
    assert (0 <= INR i) by apply pos_INR. simpl. nra. }
  rewrite !Hno by lia. now right.
Qed.

End Selection.

Section PolygonalQueries.

Import PolygonalTrajectory.

Variables (start_position ar_position : vec3) (points : list vec3) (T : R).
Variable self : t.
Hypothesis Hinit : init start_position ar_position points T = inr self.

Lemma init_total_time : total_time self = T.
Proof.
  destruct (init_inv _ _ _ _ _ Hinit) as (p0 & p1 & p2 & p3 & rest & _ & ->).
  reflexivity.
Qed.

Lemma init_index (i : nat) :
  (i < 4)%nat -> exists seg, nth_error (trajectories self) i = Some seg.
Proof.
  destruct (init_inv _ _ _ _ _ Hinit) as (p0 & p1 & p2 & p3 & rest & _ & ->).
  intros Hi.
  destruct i as [|[|[|[|i]]]]; simpl; eauto. lia.
Qed.

(** What both queries return once the result of [find] is known. *)
Lemma queries_of_find (time : R) (i : nat) (seg : LinearTrajectory.t) :
  find (in_window self time) (seq 0 4) = Some i ->
  nth_error (trajectories self) i = Some seg ->
  target_pose self time = inr (LinearTrajectory.target_pose seg (time / 4))
  /\ target_velocity self time
     = inr (LinearTrajectory.target_velocity seg (time / 4)).
Proof.
  intros Hfind Hnth.
  destruct (init_index 0) as [seg0 Hseg0]; [lia|].
  assert (Hsel : select self time = inr seg).
  { unfold select. unfold index at 1. rewrite Hseg0. unfold bind.
    rewrite select_loop_find, Hfind. unfold index. now rewrite Hnth. }
  unfold target_pose, target_velocity. rewrite Hsel. split; reflexivity.
Qed.

Lemma queries_of_no_match (time : R) (seg0 : LinearTrajectory.t) :
  find (in_window self time) (seq 0 4) = None ->
  nth_error (trajectories self) 0 = Some seg0 ->
  target_pose self time = inr (LinearTrajectory.target_pose seg0 (time / 4))
  /\ target_velocity self time
     = inr (LinearTrajectory.target_velocity seg0 (time / 4)).
Proof.
  intros Hfind Hnth.
  assert (Hsel : select self time = inr seg0).
  { unfold select, index. rewrite Hnth. unfold bind.
    now rewrite select_loop_find, Hfind. }
  unfold target_pose, target_velocity. rewrite Hsel. split; reflexivity.
Qed.

End PolygonalQueries.

(** ** The polygonal trajectory: claims *)

(** C10: the constructor reads exactly [points[0..3]]: with fewer than
    four points it raises [IndexError]; with four or more it builds the
    four chained segments of duration [total_time/4], segment [i] ending
    at [ar_position + points[i]] and starting where segment [i-1] ends
    (segment 0 at [start_position]), whatever follows the fourth point. *)
Theorem polygonal_init_reads_four_points
    (start_position ar_position : vec3) (total_time : R) :
  (forall points,
      (length points < 4)%nat ->
      PolygonalTrajectory.init start_position ar_position points total_time
      = inl IndexError)
  /\ (forall p0 p1 p2 p3 rest,
      PolygonalTrajectory.init start_position ar_position
        (p0 :: p1 :: p2 :: p3 :: rest) total_time
      = inr (PolygonalTrajectory.Build total_time
               [ LinearTrajectory.init start_position (ar_position +: p0) (total_time / 4);
                 LinearTrajectory.init (ar_position +: p0) (ar_position +: p1) (total_time / 4);
                 LinearTrajectory.init (ar_position +: p1) (ar_position +: p2) (total_time / 4);
                 LinearTrajectory.init (ar_position +: p2) (ar_position +: p3) (total_time / 4) ])).
Proof.
  split.
  - intros points Hlen. now apply init_short.
  - intros p0 p1 p2 p3 rest. apply init_four.
Qed.

Lemma polygonal_init_reads_four_points_witness :
  (length [Vec3 1 0 0; Vec3 1 1 0; Vec3 0 1 0] < 4)%nat
  /\ PolygonalTrajectory.init origin origin [Vec3 1 0 0; Vec3 1 1 0; Vec3 0 1 0] 4
     = inl IndexError
  /\ PolygonalTrajectory.init origin origin (square ++ [Vec3 5 5 5]) 4
     = inr square_trajectory.
Proof.
  assert (Hlen : (length [Vec3 1 0 0; Vec3 1 1 0; Vec3 0 1 0] < 4)%nat)
    by (simpl; lia).
  destruct (polygonal_init_reads_four_points origin origin 4) as [Hshort Hfour].
  split; [exact Hlen|]. split.
  - exact (Hshort _ Hlen).
  - exact (Hfour (Vec3 1 0 0) (Vec3 1 1 0) (Vec3 0 1 0) (Vec3 0 0 0) [Vec3 5 5 5]).
Defined.

(** C1: for a query time in [[0, T]] both queries pick the segment of
    the smallest index [i] with [t <= (i+1)*T/4] and return that
    segment's answer at the time [t/4]; when [T] is positive, [t = T]
    picks index 3. *)
Theorem polygonal_query_first_window
    (start_position ar_position : vec3) (points : list vec3) (T : R)
    (self : PolygonalTrajectory.t) (t : R) :
  PolygonalTrajectory.init start_position ar_position points T = inr self ->
  0 <= t <= T ->
  exists i seg,
    (i < 4)%nat
    /\ nth_error (PolygonalTrajectory.trajectories self) i = Some seg
    /\ t <= (INR i + 1) * T / 4
    /\ (forall j, (j < i)%nat -> ~ t <= (INR j + 1) * T / 4)
    /\ PolygonalTrajectory.target_pose self t
       = inr (LinearTrajectory.target_pose seg (t / 4))
    /\ PolygonalTrajectory.target_velocity self t
       = inr (LinearTrajectory.target_velocity seg (t / 4))
    /\ (0 < T -> t = T -> i = 3%nat).
Proof.
  intros Hinit Ht.
  pose proof (init_total_time _ _ _ _ _ Hinit) as HT.
  rewrite <- HT in Ht |- *.
  destruct (find_in_range self t Ht) as (i & Hfind & Hi & Hle & Hleast).
  destruct (init_index _ _ _ _ _ Hinit i Hi) as [seg Hseg].
  destruct (queries_of_find _ _ _ _ _ Hinit t i seg Hfind Hseg) as [Hp Hv].
  exists i, seg. repeat split; try assumption.
  intros Hpos ->.
  destruct (Nat.eq_dec i 3) as [|Hne]; [assumption|].
  exfalso.
  assert (Hi2 : (i <= 2)%nat) by lia.
  apply le_INR in Hi2. simpl in Hi2. nra.
Qed.

Lemma polygonal_query_first_window_witness :
  PolygonalTrajectory.init origin origin square 4 = inr square_trajectory
  /\ 0 <= 4 <= 4
  /\ exists i seg,
    (i < 4)%nat
    /\ nth_error (PolygonalTrajectory.trajectories square_trajectory) i = Some seg
    /\ 4 <= (INR i + 1) * 4 / 4
    /\ (forall j, (j < i)%nat -> ~ 4 <= (INR j + 1) * 4 / 4)
    /\ PolygonalTrajectory.target_pose square_trajectory 4
       = inr (LinearTrajectory.target_pose seg (4 / 4))
    /\ PolygonalTrajectory.target_velocity square_trajectory 4
       = inr (LinearTrajectory.target_velocity seg (4 / 4))
    /\ (0 < 4 -> 4 = 4 -> i = 3%nat).
Proof.
  assert (Hinit : PolygonalTrajectory.init origin origin square 4
                  = inr square_trajectory) by reflexivity.
  assert (Ht : 0 <= 4 <= 4) by lra.
  split; [exact Hinit|]. split; [exact Ht|].
  exact (polygonal_query_first_window origin origin square 4 square_trajectory 4
           Hinit Ht).
Defined.

(** C9: for a query time past [T] both queries answer with segment 0 at
    the time [t/4]; when [T] is not negative this is the loop's default,
    no index passing the test. *)
Theorem polygonal_query_past_end
    (start_position ar_position : vec3) (points : list vec3) (T : R)
    (self : PolygonalTrajectory.t) (t : R) :
  PolygonalTrajectory.init start_position ar_position points T = inr self ->
  T < t ->
  exists seg0,
    nth_error (PolygonalTrajectory.trajectories self) 0 = Some seg0
    /\ (0 <= T -> forall i, (i < 4)%nat -> ~ t <= (INR i + 1) * T / 4)
    /\ PolygonalTrajectory.target_pose self t
       = inr (LinearTrajectory.target_pose seg0 (t / 4))
    /\ PolygonalTrajectory.target_velocity self t
       = inr (LinearTrajectory.target_velocity seg0 (t / 4)).
Proof.
  intros Hinit Ht.
  pose proof (init_total_time _ _ _ _ _ Hinit) as HT.
  rewrite <- HT in Ht |- *.
  destruct (init_index _ _ _ _ _ Hinit 0) as [seg0 Hseg0]; [lia|].
  exists seg0. split; [exact Hseg0|]. split.
  - intros Hpos i Hi Hle.
    pose proof (window_bound_mono (PolygonalTrajectory.total_time self) i 3 Hpos
                  ltac:(lia)) as Hm.
    simpl in Hm. lra.
  - destruct (Rle_lt_dec 0 (PolygonalTrajectory.total_time self)) as [Hpos|Hneg].
    + apply queries_of_no_match; [|exact Hseg0].
      now apply find_past_end.
    + destruct (find_negative_duration self t Hneg) as [Hfind|Hfind].
      * now apply (queries_of_find _ _ _ _ _ Hinit t 0 seg0).
      * now apply queries_of_no_match.
Qed.

Lemma polygonal_query_past_end_witness :
  PolygonalTrajectory.init origin origin square 4 = inr square_trajectory
  /\ 4 < 5
  /\ exists seg0,
    nth_error (PolygonalTrajectory.trajectories square_trajectory) 0 = Some seg0
    /\ (0 <= 4 -> forall i, (i < 4)%nat -> ~ 5 <= (INR i + 1) * 4 / 4)
    /\ PolygonalTrajectory.target_pose square_trajectory 5
       = inr (LinearTrajectory.target_pose seg0 (5 / 4))
    /\ PolygonalTrajectory.target_velocity square_trajectory 5
       = inr (LinearTrajectory.target_velocity seg0 (5 / 4)).
Proof.
  assert (Hinit : PolygonalTrajectory.init origin origin square 4
                  = inr square_trajectory) by reflexivity.
  assert (Ht : 4 < 5) by lra.
  split; [exact Hinit|]. split; [exact Ht|].
  exact (polygonal_query_past_end origin origin square 4 square_trajectory 5
           Hinit Ht).
Defined.

(** ** Every query of a constructed polygonal trajectory answers *)

Section PolygonalTotal.

Import PolygonalTrajectory.

Variables (start_position ar_position : vec3) (points : list vec3) (T : R).
Variable self : t.
Hypothesis Hinit : init start_position ar_position points T = inr self.

Lemma segments_are_linear (i : nat) (seg : LinearTrajectory.t) :
  nth_error (trajectories self) i = Some seg ->
  exists a b, seg = LinearTrajectory.init a b (T / 4).
Proof.
  destruct (init_inv _ _ _ _ _ Hinit) as (p0 & p1 & p2 & p3 & rest & _ & ->).
  destruct i as [|[|[|[|i]]]]; simpl; try (intros [= <-]; eauto; fail).
  destruct i; discriminate.
Qed.

Lemma queries_total (time : R) :
  exists i seg,
    (i < 4)%nat
    /\ nth_error (trajectories self) i = Some seg
    /\ target_pose self time = inr (LinearTrajectory.target_pose seg (time / 4))
    /\ target_velocity self time
       = inr (LinearTrajectory.target_velocity seg (time / 4)).
Proof.
  destruct (find (in_window self time) (seq 0 4)) as [i|] eqn:Hfind.
  - assert (Hi : (i < 4)%nat).
    { apply find_some in Hfind as [Hin _]. apply in_seq in Hin. lia. }
    destruct (init_index _ _ _ _ _ Hinit i Hi) as [seg Hseg].
    exists i, seg. split; [exact Hi|]. split; [exact Hseg|].
    now apply (queries_of_find _ _ _ _ _ Hinit time i seg).
  - destruct (init_index _ _ _ _ _ Hinit 0) as [seg0 Hseg0]; [lia|].
    exists 0%nat, seg0. split; [lia|]. split; [exact Hseg0|].
    now apply queries_of_no_match.
Qed.

End PolygonalTotal.

(** ** Orientation and angular velocity *)

Lemma linear_orientation (self : LinearTrajectory.t) (time : R) :
  orientation (LinearTrajectory.target_pose self time)
  = LinearTrajectory.desired_orientation self.
Proof. reflexivity. Qed.

Lemma linear_angular (self : LinearTrajectory.t) (time : R) :
  angular_part (LinearTrajectory.target_velocity self time) = [0; 0; 0].
Proof. reflexivity. Qed.

Lemma circular_init_inv (center_position : vec3) (radius total_time : R)
    (self : CircularTrajectory.t) :
  CircularTrajectory.init center_position radius total_time = inr self ->
  total_time <> 0
  /\ self = CircularTrajectory.Build total_time center_position radius
              (2 * PI * 4.0 / total_time ^ 2)
              (total_time / 2.0 * (2 * PI * 4.0 / total_time ^ 2))
              [0; 1; 0; 0].
Proof.
  unfold CircularTrajectory.init, py_div.
  destruct (Req_dec_T (total_time ^ 2) 0) as [Hz|Hnz]; [discriminate|].
  intros [= <-]. split; [|reflexivity].
  intros ->. apply Hnz. ring.
Qed.

Lemma circular_init_ok (center_position : vec3) (radius total_time : R) :
  total_time <> 0 ->
  CircularTrajectory.init center_position radius total_time
  = inr (CircularTrajectory.Build total_time center_position radius
           (2 * PI * 4.0 / total_time ^ 2)
           (total_time / 2.0 * (2 * PI * 4.0 / total_time ^ 2))
           [0; 1; 0; 0]).
Proof.
  intros HT. unfold CircularTrajectory.init, py_div.
  destruct (Req_dec_T (total_time ^ 2) 0) as [Hz|Hnz]; [|reflexivity].
  exfalso. apply HT.
  assert (Hsq : total_time * total_time = 0) by (rewrite <- Hz; ring).
  now destruct (Rmult_integral _ _ Hsq).
Qed.

Lemma circular_init_zero (center_position : vec3) (radius : R) :
  CircularTrajectory.init center_position radius 0 = inl ZeroDivisionError.
Proof.
  unfold CircularTrajectory.init, py_div.
  destruct (Req_dec_T (0 ^ 2) 0) as [Hz|Hnz]; [reflexivity|].
  exfalso. apply Hnz. ring.
Qed.

(** C8: whatever the variant and the query time, the pose ends with the
    quaternion [[0, 1, 0, 0]] and the twist ends with three zeros. *)
Theorem orientation_fixed_angular_zero :
  (forall start_position goal_position total_time time,
      let self := LinearTrajectory.init start_position goal_position total_time in
      orientation (LinearTrajectory.target_pose self time) = [0; 1; 0; 0]
      /\ angular_part (LinearTrajectory.target_velocity self time) = [0; 0; 0])
  /\ (forall center_position radius total_time self time,
      CircularTrajectory.init center_position radius total_time = inr self ->
      orientation (CircularTrajectory.target_pose self time) = [0; 1; 0; 0]
      /\ angular_part (CircularTrajectory.target_velocity self time) = [0; 0; 0])
  /\ (forall start_position ar_position points total_time self time,
      PolygonalTrajectory.init start_position ar_position points total_time
      = inr self ->
      exists pose twist,
        PolygonalTrajectory.target_pose self time = inr pose
        /\ PolygonalTrajectory.target_velocity self time = inr twist
        /\ orientation pose = [0; 1; 0; 0]
        /\ angular_part twist = [0; 0; 0]).
Proof.
  split; [|split].
  - intros. split; reflexivity.
  - intros c r T self time Hinit.
    apply circular_init_inv in Hinit as [_ ->]. split; reflexivity.
  - intros s ar points T self time Hinit.
    destruct (queries_total _ _ _ _ _ Hinit time) as (i & seg & _ & Hseg & Hp & Hv).
    destruct (segments_are_linear _ _ _ _ _ Hinit i seg Hseg) as (a & b & ->).
    eexists _, _. split; [exact Hp|]. split; [exact Hv|].
    split; reflexivity.
Qed.

Lemma orientation_fixed_angular_zero_witness :
  CircularTrajectory.init (Vec3 0 0 0.3) 0.1 7
  = inr (CircularTrajectory.Build 7 (Vec3 0 0 0.3) 0.1
           (2 * PI * 4.0 / 7 ^ 2) (7 / 2.0 * (2 * PI * 4.0 / 7 ^ 2)) [0; 1; 0; 0])
  /\ PolygonalTrajectory.init origin origin square 4 = inr square_trajectory
  /\ (orientation
        (CircularTrajectory.target_pose
           (CircularTrajectory.Build 7 (Vec3 0 0 0.3) 0.1
              (2 * PI * 4.0 / 7 ^ 2) (7 / 2.0 * (2 * PI * 4.0 / 7 ^ 2)) [0; 1; 0; 0])
           1) = [0; 1; 0; 0]
      /\ angular_part
        (CircularTrajectory.target_velocity
           (CircularTrajectory.Build 7 (Vec3 0 0 0.3) 0.1
              (2 * PI * 4.0 / 7 ^ 2) (7 / 2.0 * (2 * PI * 4.0 / 7 ^ 2)) [0; 1; 0; 0])
           1) = [0; 0; 0])
  /\ exists pose twist,
      PolygonalTrajectory.target_pose square_trajectory 1 = inr pose
      /\ PolygonalTrajectory.target_velocity square_trajectory 1 = inr twist
      /\ orientation pose = [0; 1; 0; 0]
      /\ angular_part twist = [0; 0; 0].
Proof.
  assert (H7 : (7 : R) <> 0) by lra.
  pose proof (circular_init_ok (Vec3 0 0 0.3) 0.1 7 H7) as Hc.
  assert (Hp : PolygonalTrajectory.init origin origin square 4
               = inr square_trajectory) by reflexivity.
  destruct orientation_fixed_angular_zero as (_ & Hcirc & Hpoly).
  split; [exact Hc|]. split; [exact Hp|]. split.
  - exact (Hcirc _ _ _ _ 1 Hc).
  - exact (Hpoly _ _ _ _ _ 1 Hp).
Defined.

(** ** Values at the ends and at the midpoint *)

(** The float literals of the source as real numbers. *)
Lemma literal_half : 0.5 = / 2.
Proof. lra. Qed.

Lemma literal_two : 2.0 = 2.
Proof. lra. Qed.

Lemma literal_four : 4.0 = 4.
Proof. lra. Qed.

Ltac literals := rewrite ?literal_half, ?literal_two, ?literal_four.
Ltac literals_in H := rewrite ?literal_half, ?literal_two, ?literal_four in H.

Lemma cons3_eq (a b c a' b' c' : R) (w : list R) :
  a = a' -> b = b' -> c = c' -> a :: b :: c :: w = a' :: b' :: c' :: w.
Proof. now intros -> -> ->. Qed.

Section LinearValues.

Variables (start_position goal_position : vec3) (T : R).
Hypothesis HT : 0 < T.

Let self := LinearTrajectory.init start_position goal_position T.

Lemma linear_pose_start :
  LinearTrajectory.target_pose self 0 = hstack start_position [0; 1; 0; 0].
Proof.
  unfold LinearTrajectory.target_pose, self. simpl.
  destruct (Rle_dec 0 (T / 2.0)) as [_|Hn]; [|exfalso; apply Hn; lra].
  unfold hstack, to_list. simpl. apply cons3_eq; literals; field; lra.
Qed.

Lemma linear_pose_end :
  LinearTrajectory.target_pose self T = hstack goal_position [0; 1; 0; 0].
Proof.
  unfold LinearTrajectory.target_pose, self. simpl.
  destruct (Rle_dec T (T / 2.0)) as [Hle|_]; [exfalso; lra|].
  unfold hstack, to_list. simpl. apply cons3_eq; literals; field; lra.
Qed.

Lemma linear_velocity_start :
  LinearTrajectory.target_velocity self 0 = [0; 0; 0; 0; 0; 0].
Proof.
  unfold LinearTrajectory.target_velocity, self. simpl.
  destruct (Rle_dec 0 (T / 2.0)) as [_|Hn]; [|exfalso; apply Hn; lra].
  unfold hstack, to_list, zeros3. simpl. apply cons3_eq; literals; field; lra.
Qed.

Lemma linear_velocity_end :
  LinearTrajectory.target_velocity self T = [0; 0; 0; 0; 0; 0].
Proof.
  unfold LinearTrajectory.target_velocity, self. simpl.
  destruct (Rle_dec T (T / 2.0)) as [Hle|_]; [exfalso; lra|].
  unfold hstack, to_list, zeros3. simpl. apply cons3_eq; literals; field; lra.
Qed.

(** At the midpoint both branch formulas give [v_max]. *)
Lemma linear_branches_meet :
  LinearTrajectory.acceleration self :* (T / 2.0) = LinearTrajectory.v_max self
  /\ LinearTrajectory.v_max self
     -: LinearTrajectory.acceleration self :* (T / 2.0 - T / 2.0)
     = LinearTrajectory.v_max self.
Proof.
  unfold self. simpl. unfold vmul, vsub, smul. simpl.
  split; f_equal; literals; field; lra.
Qed.

End LinearValues.

Section CircularValues.

Variables (center_position : vec3) (radius T : R).
Variable self : CircularTrajectory.t.
Hypothesis HT : 0 < T.
Hypothesis Hinit : CircularTrajectory.init center_position radius T = inr self.

Lemma circular_fields :
  CircularTrajectory.total_time self = T
  /\ CircularTrajectory.center_position self = center_position
  /\ CircularTrajectory.radius self = radius
  /\ CircularTrajectory.angular_acceleration self = 8 * PI / T ^ 2
  /\ CircularTrajectory.angular_v_max self = 4 * PI / T.
Proof.
  destruct (circular_init_inv _ _ _ _ Hinit) as [Hnz ->]. simpl.
  repeat split; literals; field; lra.
Qed.

Lemma theta_start : CircularTrajectory.theta self 0 = 0.
Proof.
  destruct circular_fields as (Htt & _ & _ & Ha & Hv).
  unfold CircularTrajectory.theta. rewrite Htt.
  destruct (Rle_dec 0 (T / 2.0)) as [_|Hn]; [|exfalso; apply Hn; lra].
  ring.
Qed.

Lemma theta_mid : CircularTrajectory.theta self (T / 2.0) = PI.
Proof.
  destruct circular_fields as (Htt & _ & _ & Ha & Hv).
  unfold CircularTrajectory.theta. rewrite Htt.
  destruct (Rle_dec (T / 2.0) (T / 2.0)) as [_|Hn]; [|exfalso; apply Hn; lra].
  rewrite Ha. literals. field. lra.
Qed.

Lemma theta_end : CircularTrajectory.theta self T = 2 * PI.
Proof.
  destruct circular_fields as (Htt & _ & _ & Ha & Hv).
  unfold CircularTrajectory.theta. rewrite Htt.
  destruct (Rle_dec T (T / 2.0)) as [Hle|_]; [exfalso; lra|].
  cbv zeta. rewrite Ha, Hv. literals. field. lra.
Qed.

Lemma theta_dot_start : CircularTrajectory.theta_dot self 0 = 0.
Proof.
  destruct circular_fields as (Htt & _ & _ & Ha & Hv).
  unfold CircularTrajectory.theta_dot. rewrite Htt.
  destruct (Rle_dec 0 (T / 2.0)) as [_|Hn]; [|exfalso; apply Hn; lra].
  ring.
Qed.

Lemma theta_dot_mid :
  CircularTrajectory.theta_dot self (T / 2.0)
  = CircularTrajectory.angular_v_max self.
Proof.
  destruct circular_fields as (Htt & _ & _ & Ha & Hv).
  unfold CircularTrajectory.theta_dot. rewrite Htt.
  destruct (Rle_dec (T / 2.0) (T / 2.0)) as [_|Hn]; [|exfalso; apply Hn; lra].
  rewrite Ha, Hv. literals. field. lra.
Qed.

Lemma theta_dot_end : CircularTrajectory.theta_dot self T = 0.
Proof.
  destruct circular_fields as (Htt & _ & _ & Ha & Hv).
  unfold CircularTrajectory.theta_dot. rewrite Htt.
  destruct (Rle_dec T (T / 2.0)) as [Hle|_]; [exfalso; lra|].
  cbv zeta. rewrite Ha, Hv. literals. field. lra.
Qed.

Lemma circular_pose_of_theta (time : R) :
  CircularTrajectory.target_pose self time
  = hstack (center_position
            +: radius *: Vec3 (cos (CircularTrajectory.theta self time))
                              (sin (CircularTrajectory.theta self time)) 0)
           [0; 1; 0; 0].
Proof.
  destruct (circular_init_inv _ _ _ _ Hinit) as [_ ->]. reflexivity.
Qed.

Lemma circular_pose_start :
  CircularTrajectory.target_pose self 0
  = hstack (center_position +: radius *: Vec3 1 0 0) [0; 1; 0; 0].
Proof.
  rewrite circular_pose_of_theta, theta_start, cos_0, sin_0. reflexivity.
Qed.

Lemma circular_pose_end :
  CircularTrajectory.target_pose self T
  = hstack (center_position +: radius *: Vec3 1 0 0) [0; 1; 0; 0].
Proof.
  rewrite circular_pose_of_theta, theta_end, cos_2PI, sin_2PI. reflexivity.
Qed.

Lemma circular_velocity_of_theta_dot_zero (time : R) :
  CircularTrajectory.theta_dot self time = 0 ->
  CircularTrajectory.target_velocity self time = [0; 0; 0; 0; 0; 0].
Proof.
  intros Hz. unfold CircularTrajectory.target_velocity. rewrite Hz.
  unfold hstack, to_list, zeros3, smul. simpl. apply cons3_eq; ring.
Qed.

End CircularValues.

(** C4: a linear trajectory of positive duration starts at
    [start_position] and ends at [goal_position]. *)
Theorem linear_endpoints (start_position goal_position : vec3) (T : R) :
  0 < T ->
  let self := LinearTrajectory.init start_position goal_position T in
  position (LinearTrajectory.target_pose self 0) = to_list start_position
  /\ position (LinearTrajectory.target_pose self T) = to_list goal_position.
Proof.
  intros HT self. unfold self.
  rewrite linear_pose_start, linear_pose_end by exact HT.
  split; reflexivity.
Qed.

Lemma linear_endpoints_witness :
  0 < 2
  /\ position (LinearTrajectory.target_pose
                 (LinearTrajectory.init origin (Vec3 1 0 0) 2) 0)
     = to_list origin
  /\ position (LinearTrajectory.target_pose
                 (LinearTrajectory.init origin (Vec3 1 0 0) 2) 2)
     = to_list (Vec3 1 0 0).
Proof.
  assert (H2 : 0 < 2) by lra.
  split; [exact H2|].
  exact (linear_endpoints origin (Vec3 1 0 0) 2 H2).
Defined.

(** C5: a circular trajectory of positive duration is at
    [center + radius*(1,0,0)] at time 0 and again at time [T], where the
    angle is [2*PI]. *)
Theorem circular_full_revolution (center_position : vec3) (radius T : R) :
  0 < T ->
  exists self,
    CircularTrajectory.init center_position radius T = inr self
    /\ CircularTrajectory.theta self T = 2 * PI
    /\ position (CircularTrajectory.target_pose self 0)
       = to_list (center_position +: radius *: Vec3 1 0 0)
    /\ position (CircularTrajectory.target_pose self T)
       = to_list (center_position +: radius *: Vec3 1 0 0).
Proof.
  intros HT.
  assert (Hnz : T <> 0) by lra.
  pose proof (circular_init_ok center_position radius T Hnz) as Hinit.
  eexists. split; [exact Hinit|].
  rewrite (theta_end _ _ _ _ HT Hinit).
  rewrite (circular_pose_start _ _ _ _ HT Hinit).
  rewrite (circular_pose_end _ _ _ _ HT Hinit).
  repeat split; reflexivity.
Qed.

Lemma circular_full_revolution_witness :
  0 < 7
  /\ exists self,
    CircularTrajectory.init (Vec3 0 0 3) 1 7 = inr self
    /\ CircularTrajectory.theta self 7 = 2 * PI
    /\ position (CircularTrajectory.target_pose self 0)
       = to_list (Vec3 0 0 3 +: 1 *: Vec3 1 0 0)
    /\ position (CircularTrajectory.target_pose self 7)
       = to_list (Vec3 0 0 3 +: 1 *: Vec3 1 0 0).
Proof.
  assert (H7 : 0 < 7) by lra.
  split; [exact H7|].
  exact (circular_full_revolution (Vec3 0 0 3) 1 7 H7).
Defined.

(** C6: linear and circular trajectories of positive duration have the
    zero twist at time 0 and at time [T]. *)
Theorem rest_to_rest (T : R) :
  0 < T ->
  (forall start_position goal_position,
      let self := LinearTrajectory.init start_position goal_position T in
      LinearTrajectory.target_velocity self 0 = [0; 0; 0; 0; 0; 0]
      /\ LinearTrajectory.target_velocity self T = [0; 0; 0; 0; 0; 0])
  /\ (forall center_position radius,
      exists self,
        CircularTrajectory.init center_position radius T = inr self
        /\ CircularTrajectory.target_velocity self 0 = [0; 0; 0; 0; 0; 0]
        /\ CircularTrajectory.target_velocity self T = [0; 0; 0; 0; 0; 0]).
Proof.
  intros HT. split.
  - intros s g self. unfold self.
    rewrite linear_velocity_start, linear_velocity_end by exact HT.
    split; reflexivity.
  - intros c r.
    assert (Hnz : T <> 0) by lra.
    pose proof (circular_init_ok c r T Hnz) as Hinit.
    eexists. split; [exact Hinit|]. split.
    + apply circular_velocity_of_theta_dot_zero.
      exact (theta_dot_start _ _ _ _ HT Hinit).
    + apply circular_velocity_of_theta_dot_zero.
      exact (theta_dot_end _ _ _ _ HT Hinit).
Qed.

Lemma rest_to_rest_witness :
  0 < 3
  /\ (LinearTrajectory.target_velocity
        (LinearTrajectory.init origin (Vec3 1 2 3) 3) 0 = [0; 0; 0; 0; 0; 0]
      /\ LinearTrajectory.target_velocity
        (LinearTrajectory.init origin (Vec3 1 2 3) 3) 3 = [0; 0; 0; 0; 0; 0])
  /\ exists self,
      CircularTrajectory.init (Vec3 0 0 3) 1 3 = inr self
      /\ CircularTrajectory.target_velocity self 0 = [0; 0; 0; 0; 0; 0]
      /\ CircularTrajectory.target_velocity self 3 = [0; 0; 0; 0; 0; 0].
Proof.
  assert (H3 : 0 < 3) by lra.
  destruct (rest_to_rest 3 H3) as [Hlin Hcirc].
  split; [exact H3|]. split.
  - exact (Hlin origin (Vec3 1 2 3)).
  - exact (Hcirc (Vec3 0 0 3) 1).
Defined.

(** ** Continuity of a function defined by two branches *)

Section Piecewise.

Variables (f1 f2 : R -> R) (a : R).

Lemma piecewise_at : piecewise f1 f2 a a = f1 a.
Proof.
  unfold piecewise. destruct (Rle_dec a a) as [_|Hn]; [reflexivity|].
  exfalso. apply Hn. lra.
Qed.

Lemma continuity_pt_piecewise :
  continuity_pt f1 a -> continuity_pt f2 a -> f1 a = f2 a ->
  continuity_pt (piecewise f1 f2 a) a.
Proof.
  intros H1 H2 Heq eps Heps.
  destruct (H1 eps Heps) as (d1 & Hd1 & Hc1).
  destruct (H2 eps Heps) as (d2 & Hd2 & Hc2).
  exists (Rmin d1 d2). split; [now apply Rmin_pos|].
  intros x [Hx Hdist]. rewrite piecewise_at.
  unfold piecewise. destruct (Rle_dec x a) as [Hle|Hgt].
  - apply Hc1. split; [exact Hx|].
    eapply Rlt_le_trans; [exact Hdist | apply Rmin_l].
  - rewrite Heq. apply Hc2. split; [exact Hx|].
    eapply Rlt_le_trans; [exact Hdist | apply Rmin_r].
Qed.

End Piecewise.

Lemma continuity_pt_ext (f g : R -> R) (a : R) :
  (forall t, f t = g t) -> continuity_pt g a -> continuity_pt f a.
Proof.
  intros Hext Hg eps Heps.
  destruct (Hg eps Heps) as (d & Hd & Hc).
  exists d. split; [exact Hd|].
  intros x Hx. rewrite !Hext. now apply Hc.
Qed.

(** A function continuous at [a] has its value at [a] as limit from the
    left and from the right. *)
Lemma side_limits (f : R -> R) (a : R) :
  continuity_pt f a ->
  limit1_in f (fun t => t < a) (f a) a /\ limit1_in f (fun t => a < t) (f a) a.
Proof.
  intros Hc. split.
  - apply limit1_imp with (D := D_x no_cond a); [|exact Hc].
    intros x Hx. split; [exact I | lra].
  - apply limit1_imp with (D := D_x no_cond a); [|exact Hc].
    intros x Hx. split; [exact I | lra].
Qed.

Section LinearContinuity.

Variable self : LinearTrajectory.t.

Lemma linear_velocity_component (k : nat) (t : R) :
  nth k (LinearTrajectory.target_velocity self t) 0
  = piecewise
      (fun t => nth k (hstack (LinearTrajectory.acceleration self :* t) zeros3) 0)
      (fun t => nth k (hstack (LinearTrajectory.v_max self
                               -: LinearTrajectory.acceleration self
                                  :* (t - LinearTrajectory.total_time self / 2.0))
                              zeros3) 0)
      (LinearTrajectory.total_time self / 2.0) t.
Proof.
  unfold LinearTrajectory.target_velocity, piecewise.
  destruct (Rle_dec _ _); reflexivity.
Qed.

Hypothesis Hmeet :
  LinearTrajectory.acceleration self :* (LinearTrajectory.total_time self / 2.0)
  = LinearTrajectory.v_max self.

Lemma linear_velocity_continuous_mid (k : nat) :
  continuity_pt (fun t => nth k (LinearTrajectory.target_velocity self t) 0)
                (LinearTrajectory.total_time self / 2.0).
Proof.
  eapply continuity_pt_ext; [intros t; apply linear_velocity_component|].
  apply continuity_pt_piecewise.
  - do 6 (try destruct k as [|k]); simpl; reg.
  - do 6 (try destruct k as [|k]); simpl; reg.
  - rewrite Hmeet.
    replace (LinearTrajectory.total_time self / 2.0
             - LinearTrajectory.total_time self / 2.0) with 0 by ring.
    do 4 f_equal. destruct (LinearTrajectory.v_max self) as [x y z].
    unfold vsub, vmul. simpl. f_equal; ring.
Qed.

Lemma linear_velocity_mid :
  LinearTrajectory.target_velocity self (LinearTrajectory.total_time self / 2.0)
  = hstack (LinearTrajectory.v_max self) zeros3.
Proof.
  unfold LinearTrajectory.target_velocity.
  destruct (Rle_dec _ _) as [_|Hn]; [now rewrite Hmeet|].
  exfalso. apply Hn. lra.
Qed.

End LinearContinuity.

Section CircularContinuity.

Variables (center_position : vec3) (radius T : R).
Variable self : CircularTrajectory.t.
Hypothesis HT : 0 < T.
Hypothesis Hinit : CircularTrajectory.init center_position radius T = inr self.

Let alpha := CircularTrajectory.angular_acceleration self.
Let omega := CircularTrajectory.angular_v_max self.

Lemma theta_piecewise (t : R) :
  CircularTrajectory.theta self t
  = piecewise (fun t => 0.5 * alpha * t ^ 2)
              (fun t => PI + omega * (t - T / 2.0) - 0.5 * alpha * (t - T / 2.0) ^ 2)
              (T / 2.0) t.
Proof.
  destruct (circular_fields _ _ _ _ HT Hinit) as (Htt & _).
  unfold CircularTrajectory.theta, piecewise. rewrite Htt. reflexivity.
Qed.

Lemma theta_dot_piecewise (t : R) :
  CircularTrajectory.theta_dot self t
  = piecewise (fun t => alpha * t)
              (fun t => omega - alpha * (t - T / 2.0))
              (T / 2.0) t.
Proof.
  destruct (circular_fields _ _ _ _ HT Hinit) as (Htt & _).
  unfold CircularTrajectory.theta_dot, piecewise. rewrite Htt. reflexivity.
Qed.

Lemma theta_branches_meet :
  0.5 * alpha * (T / 2.0) ^ 2
  = PI + omega * (T / 2.0 - T / 2.0) - 0.5 * alpha * (T / 2.0 - T / 2.0) ^ 2.
Proof.
  destruct (circular_fields _ _ _ _ HT Hinit) as (_ & _ & _ & Ha & Hv).
  unfold alpha, omega. rewrite Ha, Hv. literals. field. lra.
Qed.

Lemma theta_dot_branches_meet :
  alpha * (T / 2.0) = omega /\ omega - alpha * (T / 2.0 - T / 2.0) = omega.
Proof.
  destruct (circular_fields _ _ _ _ HT Hinit) as (_ & _ & _ & Ha & Hv).
  unfold alpha, omega. rewrite Ha, Hv. literals. split; field; lra.
Qed.

Lemma theta_continuous_mid :
  continuity_pt (CircularTrajectory.theta self) (T / 2.0).
Proof.
  eapply continuity_pt_ext; [exact theta_piecewise|].
  apply continuity_pt_piecewise; [reg | reg | exact theta_branches_meet].
Qed.

Lemma theta_dot_continuous_mid :
  continuity_pt (CircularTrajectory.theta_dot self) (T / 2.0).
Proof.
  eapply continuity_pt_ext; [exact theta_dot_piecewise|].
  apply continuity_pt_piecewise; [reg | reg |].
  destruct theta_dot_branches_meet as [-> ->]. reflexivity.
Qed.

Lemma circular_velocity_continuous_mid (k : nat) :
  continuity_pt (fun t => nth k (CircularTrajectory.target_velocity self t) 0)
                (T / 2.0).
Proof.
  pose proof theta_continuous_mid as Hth.
  pose proof theta_dot_continuous_mid as Hdot.
  assert (Hscaled : continuity_pt
            (fun t => CircularTrajectory.radius self
                      * CircularTrajectory.theta_dot self t) (T / 2.0)).
  { apply (continuity_pt_mult (fun _ => CircularTrajectory.radius self)
             (CircularTrajectory.theta_dot self)); [|exact Hdot].
    apply continuity_pt_const. intros x y. reflexivity. }
  unfold CircularTrajectory.target_velocity, hstack, to_list, zeros3, smul.
  cbn [vx vy vz app].
  do 6 (try destruct k as [|k]); cbn [nth].
  - apply (continuity_pt_mult _ (fun t => - sin (CircularTrajectory.theta self t)));
      [exact Hscaled|].
    apply (continuity_pt_opp (fun t => sin (CircularTrajectory.theta self t))).
    apply (continuity_pt_comp (CircularTrajectory.theta self) sin);
      [exact Hth | apply continuity_sin].
  - apply (continuity_pt_mult _ (fun t => cos (CircularTrajectory.theta self t)));
      [exact Hscaled|].
    apply (continuity_pt_comp (CircularTrajectory.theta self) cos);
      [exact Hth | apply continuity_cos].
  - apply (continuity_pt_mult _ (fun _ => 0)); [exact Hscaled|].
    apply continuity_pt_const. intros x y. reflexivity.
  - apply continuity_pt_const. intros x y. reflexivity.
  - apply continuity_pt_const. intros x y. reflexivity.
  - apply continuity_pt_const. intros x y. reflexivity.
  - apply continuity_pt_const. intros x y. destruct k; reflexivity.
Qed.

End CircularContinuity.

(** C7: at the midpoint [T/2] the velocity is continuous.  For a linear
    trajectory both branch formulas give [v_max] there and every
    component of the twist tends to that of [v_max] from the left and
    from the right; for a circular trajectory [theta_dot] tends to
    [angular_v_max] from both sides and every component of the twist is
    continuous. *)
Theorem velocity_continuous_at_midpoint (T : R) :
  0 < T ->
  (forall start_position goal_position,
      let self := LinearTrajectory.init start_position goal_position T in
      let component k t := nth k (LinearTrajectory.target_velocity self t) 0 in
      let peak k := nth k (hstack (LinearTrajectory.v_max self) zeros3) 0 in
      LinearTrajectory.acceleration self :* (T / 2) = LinearTrajectory.v_max self
      /\ LinearTrajectory.v_max self
         -: LinearTrajectory.acceleration self :* (T / 2 - T / 2)
         = LinearTrajectory.v_max self
      /\ forall k,
          limit1_in (component k) (fun t => t < T / 2) (peak k) (T / 2)
          /\ limit1_in (component k) (fun t => T / 2 < t) (peak k) (T / 2)
          /\ continuity_pt (component k) (T / 2))
  /\ (forall center_position radius,
      exists self,
        CircularTrajectory.init center_position radius T = inr self
        /\ limit1_in (CircularTrajectory.theta_dot self) (fun t => t < T / 2)
             (CircularTrajectory.angular_v_max self) (T / 2)
        /\ limit1_in (CircularTrajectory.theta_dot self) (fun t => T / 2 < t)
             (CircularTrajectory.angular_v_max self) (T / 2)
        /\ forall k,
            continuity_pt
              (fun t => nth k (CircularTrajectory.target_velocity self t) 0)
              (T / 2)).
Proof.
  intros HT.
  replace (T / 2) with (T / 2.0) by (rewrite literal_two; reflexivity).
  split.
  - intros s g self component peak.
    destruct (linear_branches_meet s g T HT) as [Hmeet Hmeet'].
    split; [exact Hmeet|]. split; [exact Hmeet'|].
    intros k.
    pose proof (linear_velocity_continuous_mid self Hmeet k) as Hc.
    pose proof (linear_velocity_mid self Hmeet) as Hmid.
    change (LinearTrajectory.total_time self) with T in Hc, Hmid.
    destruct (side_limits _ _ Hc) as [Hl Hr].
    cbv beta in Hl, Hr. rewrite Hmid in Hl, Hr.
    repeat split; assumption.
  - intros c r.
    assert (Hnz : T <> 0) by lra.
    pose proof (circular_init_ok c r T Hnz) as Hinit.
    eexists. split; [exact Hinit|].
    pose proof (theta_dot_continuous_mid _ _ _ _ HT Hinit) as Hc.
    destruct (side_limits _ _ Hc) as [Hl Hr].
    rewrite (theta_dot_mid _ _ _ _ HT Hinit) in Hl, Hr.
    split; [exact Hl|]. split; [exact Hr|].
    intros k. exact (circular_velocity_continuous_mid _ _ _ _ HT Hinit k).
Qed.

Lemma velocity_continuous_at_midpoint_witness :
  0 < 2
  /\ (let self := LinearTrajectory.init origin (Vec3 1 0 0) 2 in
      let component k t := nth k (LinearTrajectory.target_velocity self t) 0 in
      let peak k := nth k (hstack (LinearTrajectory.v_max self) zeros3) 0 in
      LinearTrajectory.acceleration self :* (2 / 2) = LinearTrajectory.v_max self
      /\ LinearTrajectory.v_max self
         -: LinearTrajectory.acceleration self :* (2 / 2 - 2 / 2)
         = LinearTrajectory.v_max self
      /\ forall k,
          limit1_in (component k) (fun t => t < 2 / 2) (peak k) (2 / 2)
          /\ limit1_in (component k) (fun t => 2 / 2 < t) (peak k) (2 / 2)
          /\ continuity_pt (component k) (2 / 2))
  /\ exists self,
      CircularTrajectory.init origin 1 2 = inr self
      /\ limit1_in (CircularTrajectory.theta_dot self) (fun t => t < 2 / 2)
           (CircularTrajectory.angular_v_max self) (2 / 2)
      /\ limit1_in (CircularTrajectory.theta_dot self) (fun t => 2 / 2 < t)
           (CircularTrajectory.angular_v_max self) (2 / 2)
      /\ forall k,
          continuity_pt
            (fun t => nth k (CircularTrajectory.target_velocity self t) 0)
            (2 / 2).
Proof.
  assert (H2 : 0 < 2) by lra.
  destruct (velocity_continuous_at_midpoint 2 H2) as [Hlin Hcirc].
  split; [exact H2|]. split.
  - exact (Hlin origin (Vec3 1 0 0)).
  - exact (Hcirc origin 1).
Defined.

(** ** Derivatives *)

(** The derivative at [x] depends only on the values near [x]. *)
Lemma derivable_pt_lim_local (f g : R -> R) (x l d : R) :
  0 < d ->
  (forall t, Rabs (t - x) < d -> f t = g t) ->
  derivable_pt_lim g x l -> derivable_pt_lim f x l.
Proof.
  intros Hd Hloc Hg eps Heps.
  destruct (Hg eps Heps) as [delta Hdelta].
  assert (Hmin : 0 < Rmin delta d) by (apply Rmin_pos; [apply cond_pos | exact Hd]).
  exists (mkposreal _ Hmin). intros h Hh Hlt. simpl in Hlt.
  rewrite (Hloc (x + h)), (Hloc x).
  - apply Hdelta; [exact Hh|].
    eapply Rlt_le_trans; [exact Hlt | apply Rmin_l].
  - replace (x - x) with 0 by ring. rewrite Rabs_R0. exact Hd.
  - replace (x + h - x) with h by ring.
    eapply Rlt_le_trans; [exact Hlt | apply Rmin_r].
Qed.

Lemma derivable_pt_lim_ext (f g : R -> R) (x l l' : R) :
  (forall t, f t = g t) -> l = l' ->
  derivable_pt_lim g x l' -> derivable_pt_lim f x l.
Proof.
  intros Hext -> Hg.
  apply derivable_pt_lim_local with (g := g) (d := 1); [lra | | exact Hg].
  intros t _. apply Hext.
Qed.

(** The derivative of a polynomial of degree two, written around [m]
    as both branches of the trajectories are. *)
Lemma derivable_pt_lim_quadratic (c0 c1 c2 m x : R) :
  derivable_pt_lim (fun t => c0 + c1 * (t - m) - c2 * (t - m) ^ 2) x
                   (c1 - 2 * c2 * (x - m)).
Proof.
  intros eps Heps.
  destruct (Req_dec_T c2 0) as [Hz|Hnz].
  - exists (mkposreal 1 Rlt_0_1). intros h Hh _. subst c2.
    replace ((c0 + c1 * (x + h - m) - 0 * (x + h - m) ^ 2
              - (c0 + c1 * (x - m) - 0 * (x - m) ^ 2)) / h
             - (c1 - 2 * 0 * (x - m)))
      with 0 by (field; assumption).
    rewrite Rabs_R0. exact Heps.
  - assert (Hc2 : 0 < Rabs c2) by now apply Rabs_pos_lt.
    assert (Hpos : 0 < eps / Rabs c2) by now apply Rdiv_lt_0_compat.
    exists (mkposreal _ Hpos). intros h Hh Hlt. simpl in Hlt.
    replace ((c0 + c1 * (x + h - m) - c2 * (x + h - m) ^ 2
              - (c0 + c1 * (x - m) - c2 * (x - m) ^ 2)) / h
             - (c1 - 2 * c2 * (x - m)))
      with (- c2 * h) by (field; assumption).
    rewrite Rabs_mult, Rabs_Ropp.
    apply Rmult_lt_compat_l with (r := Rabs c2) in Hlt; [|exact Hc2].
    replace (Rabs c2 * (eps / Rabs c2)) with eps in Hlt; [exact Hlt|].
    field. lra.
Qed.

(** A function defined by two branches that meet at [a] with the same
    slope there is derivable everywhere the branches are. *)
Lemma derivable_pt_lim_piecewise (f1 f2 : R -> R) (a x l : R) :
  (x <= a -> derivable_pt_lim f1 x l) ->
  (a <= x -> derivable_pt_lim f2 x l) ->
  f1 a = f2 a ->
  derivable_pt_lim (piecewise f1 f2 a) x l.
Proof.
  intros H1 H2 Hmeet.
  destruct (Rtotal_order x a) as [Hlt | [-> | Hgt]].
  - apply derivable_pt_lim_local with (g := f1) (d := a - x); [lra | | apply H1; lra].
    intros t Ht. apply Rabs_def2 in Ht. unfold piecewise.
    destruct (Rle_dec t a); [reflexivity | lra].
  - intros eps Heps.
    destruct (H1 (Rle_refl a) eps Heps) as [d1 Hd1].
    destruct (H2 (Rle_refl a) eps Heps) as [d2 Hd2].
    assert (Hmin : 0 < Rmin d1 d2) by (apply Rmin_pos; apply cond_pos).
    exists (mkposreal _ Hmin). intros h Hh Hlt. simpl in Hlt.
    rewrite piecewise_at. unfold piecewise.
    destruct (Rle_dec (a + h) a) as [Hle|Hnle].
    + apply Hd1; [exact Hh|].
      eapply Rlt_le_trans; [exact Hlt | apply Rmin_l].
    + rewrite Hmeet. apply Hd2; [exact Hh|].
      eapply Rlt_le_trans; [exact Hlt | apply Rmin_r].
  - apply derivable_pt_lim_local with (g := f2) (d := x - a); [lra | | apply H2; lra].
    intros t Ht. apply Rabs_def2 in Ht. unfold piecewise.
    destruct (Rle_dec t a); [lra | reflexivity].
Qed.

(** *** The triangular velocity profile on one axis *)

Section Profile.

Variables (s mid acc vmax a : R).

Hypothesis Hpeak : acc * a = vmax.
Hypothesis Hmid : s + 0.5 * acc * a ^ 2 = mid.

Lemma profile_vel_left (x : R) : x <= a -> profile_vel acc vmax a x = acc * x.
Proof.
  intros Hle. unfold profile_vel, piecewise.
  destruct (Rle_dec x a); [reflexivity | contradiction].
Qed.

Lemma profile_vel_right (x : R) :
  a <= x -> profile_vel acc vmax a x = vmax - acc * (x - a).
Proof.
  intros Hge. unfold profile_vel, piecewise.
  destruct (Rle_dec x a) as [Hle|_]; [|reflexivity].
  assert (x = a) as -> by lra. rewrite <- Hpeak. ring.
Qed.

Lemma profile_derivative (x : R) :
  derivable_pt_lim (profile_pos s mid acc vmax a) x (profile_vel acc vmax a x).
Proof.
  unfold profile_pos. apply derivable_pt_lim_piecewise.
  - intros Hle. rewrite (profile_vel_left x Hle).
    apply derivable_pt_lim_ext
      with (g := fun t => s + 0 * (t - 0) - (- / 2 * acc) * (t - 0) ^ 2)
           (l' := 0 - 2 * (- / 2 * acc) * (x - 0)).
    + intros t. literals. ring.
    + field.
    + apply derivable_pt_lim_quadratic.
  - intros Hge. rewrite (profile_vel_right x Hge).
    apply derivable_pt_lim_ext
      with (g := fun t => mid + vmax * (t - a) - (/ 2 * acc) * (t - a) ^ 2)
           (l' := vmax - 2 * (/ 2 * acc) * (x - a)).
    + intros t. literals. ring.
    + field.
    + apply derivable_pt_lim_quadratic.
  - rewrite <- Hmid. ring.
Qed.

End Profile.

Section LinearDerivative.

Variable self : LinearTrajectory.t.
Hypothesis Hmeet :
  LinearTrajectory.acceleration self :* (LinearTrajectory.total_time self / 2.0)
  = LinearTrajectory.v_max self.

Let a := LinearTrajectory.total_time self / 2.0.

Lemma linear_pose_axis (k : nat) (t : R) :
  (k < 3)%nat ->
  nth k (LinearTrajectory.target_pose self t) 0
  = profile_pos (axis k (LinearTrajectory.start_position self))
      (axis k (LinearTrajectory.start_position self)
       + 0.5 * axis k (LinearTrajectory.acceleration self) * a ^ 2)
      (axis k (LinearTrajectory.acceleration self))
      (axis k (LinearTrajectory.v_max self)) a t.
Proof.
  intros Hk.
  unfold LinearTrajectory.target_pose, profile_pos, piecewise. fold a.
  destruct (Rle_dec t a);
    destruct k as [|[|[|k]]]; try lia;
    unfold axis, hstack, to_list, vadd, vsub, vmul, smul;
    cbn [nth app vx vy vz]; ring.
Qed.

Lemma linear_velocity_axis (k : nat) (t : R) :
  (k < 3)%nat ->
  nth k (LinearTrajectory.target_velocity self t) 0
  = profile_vel (axis k (LinearTrajectory.acceleration self))
      (axis k (LinearTrajectory.v_max self)) a t.
Proof.
  intros Hk.
  unfold LinearTrajectory.target_velocity, profile_vel, piecewise. fold a.
  destruct (Rle_dec t a);
    destruct k as [|[|[|k]]]; try lia;
    unfold axis, hstack, to_list, vadd, vsub, vmul, smul;
    cbn [nth app vx vy vz]; ring.
Qed.

(** The first three components of the twist are the derivatives of the
    first three components of the pose, at every time. *)
Lemma linear_velocity_is_derivative (k : nat) (x : R) :
  (k < 3)%nat ->
  derivable_pt_lim (fun t => nth k (LinearTrajectory.target_pose self t) 0) x
                   (nth k (LinearTrajectory.target_velocity self x) 0).
Proof.
  intros Hk.
  eapply derivable_pt_lim_ext;
    [ intros t; apply (linear_pose_axis k t Hk)
    | apply (linear_velocity_axis k x Hk) | ].
  apply profile_derivative; [|reflexivity].
  rewrite <- Hmeet. fold a.
  destruct (LinearTrajectory.acceleration self) as [ax ay az].
  destruct k as [|[|[|k]]]; try lia; reflexivity.
Qed.

End LinearDerivative.

Section CircularDerivative.

Variables (center_position : vec3) (radius T : R).
Variable self : CircularTrajectory.t.
Hypothesis HT : 0 < T.
Hypothesis Hinit : CircularTrajectory.init center_position radius T = inr self.

Lemma theta_derivative (x : R) :
  derivable_pt_lim (CircularTrajectory.theta self) x
                   (CircularTrajectory.theta_dot self x).
Proof.
  pose proof (theta_branches_meet _ _ _ _ HT Hinit) as Hmeet.
  destruct (theta_dot_branches_meet _ _ _ _ HT Hinit) as [Hpeak _].
  apply derivable_pt_lim_ext
    with (g := profile_pos 0 PI (CircularTrajectory.angular_acceleration self)
                 (CircularTrajectory.angular_v_max self) (T / 2.0))
         (l' := profile_vel (CircularTrajectory.angular_acceleration self)
                  (CircularTrajectory.angular_v_max self) (T / 2.0) x).
  - intros t. rewrite (theta_piecewise _ _ _ _ HT Hinit).
    unfold profile_pos, piecewise. destruct (Rle_dec t (T / 2.0)); ring.
  - apply (theta_dot_piecewise _ _ _ _ HT Hinit).
  - apply profile_derivative; [exact Hpeak|].
    rewrite Hmeet. ring.
Qed.

Lemma circular_velocity_is_derivative (k : nat) (x : R) :
  (k < 3)%nat ->
  derivable_pt_lim (fun t => nth k (CircularTrajectory.target_pose self t) 0) x
                   (nth k (CircularTrajectory.target_velocity self x) 0).
Proof.
  intros Hk.
  pose proof (theta_derivative x) as Hth.
  set (th := CircularTrajectory.theta self) in *.
  set (r := CircularTrajectory.radius self).
  set (c := CircularTrajectory.center_position self).
  unfold CircularTrajectory.target_pose, CircularTrajectory.target_velocity.
  unfold hstack, to_list, vadd, smul. cbn [vx vy vz app].
  fold th r c.
  destruct k as [|[|[|k]]]; [| | |lia]; cbn [nth].
  - apply derivable_pt_lim_ext
      with (g := (fct_cte (vx c) + mult_real_fct r (comp cos th))%F)
           (l' := 0 + r * (- sin (th x) * CircularTrajectory.theta_dot self x)).
    + intros t. reflexivity.
    + ring.
    + apply derivable_pt_lim_plus; [apply derivable_pt_lim_const|].
      apply derivable_pt_lim_scal.
      apply derivable_pt_lim_comp; [exact Hth | apply derivable_pt_lim_cos].
  - apply derivable_pt_lim_ext
      with (g := (fct_cte (vy c) + mult_real_fct r (comp sin th))%F)
           (l' := 0 + r * (cos (th x) * CircularTrajectory.theta_dot self x)).
    + intros t. reflexivity.
    + ring.
    + apply derivable_pt_lim_plus; [apply derivable_pt_lim_const|].
      apply derivable_pt_lim_scal.
      apply derivable_pt_lim_comp; [exact Hth | apply derivable_pt_lim_sin].
  - apply derivable_pt_lim_ext with (g := fct_cte (vz c + r * 0)) (l' := 0).
    + intros t. reflexivity.
    + ring.
    + apply derivable_pt_lim_const.
Qed.

End CircularDerivative.

(** For a positive duration the velocity of a linear and of a circular
    trajectory is the derivative of its position, at every time. *)
Lemma smooth_variants_velocity_is_derivative (T : R) :
  0 < T ->
  (forall start_position goal_position k x,
      (k < 3)%nat ->
      let self := LinearTrajectory.init start_position goal_position T in
      derivable_pt_lim (fun t => nth k (LinearTrajectory.target_pose self t) 0) x
                       (nth k (LinearTrajectory.target_velocity self x) 0))
  /\ (forall center_position radius,
      exists self,
        CircularTrajectory.init center_position radius T = inr self
        /\ forall k x,
            (k < 3)%nat ->
            derivable_pt_lim
              (fun t => nth k (CircularTrajectory.target_pose self t) 0) x
              (nth k (CircularTrajectory.target_velocity self x) 0)).
Proof.
  intros HT. split.
  - intros s g k x Hk self.
    apply linear_velocity_is_derivative; [|exact Hk].
    destruct (linear_branches_meet s g T HT) as [Hmeet _]. exact Hmeet.
  - intros c r.
    assert (Hnz : T <> 0) by lra.
    pose proof (circular_init_ok c r T Hnz) as Hinit.
    eexists. split; [exact Hinit|].
    intros k x Hk.
    exact (circular_velocity_is_derivative _ _ _ _ HT Hinit k x Hk).
Qed.

(** ** The polygonal trajectory: velocity against the slope of the pose *)

Lemma find_first_window (self : PolygonalTrajectory.t) (t : R) (i : nat) :
  (i < 4)%nat ->
  t <= (INR i + 1) * PolygonalTrajectory.total_time self / 4 ->
  (forall j, (j < i)%nat ->
             ~ t <= (INR j + 1) * PolygonalTrajectory.total_time self / 4) ->
  find (in_window self t) (seq 0 4) = Some i.
Proof.
  intros Hi Hle Hleast.
  assert (Hyes : in_window self t i = true) by now apply in_window_true.
  assert (Hno : forall j, (j < i)%nat -> in_window self t j = false).
  { intros j Hj. destruct (in_window self t j) eqn:E; [|reflexivity].
    apply in_window_true in E. now destruct (Hleast j Hj). }
  destruct i as [|[|[|[|i]]]]; [| | | |lia]; simpl.
  - now rewrite Hyes.
  - now rewrite (Hno 0%nat), Hyes by lia.
  - now rewrite (Hno 0%nat), (Hno 1%nat), Hyes by lia.
  - now rewrite (Hno 0%nat), (Hno 1%nat), (Hno 2%nat), Hyes by lia.
Qed.

Lemma linear_init_meet (start_position goal_position : vec3) (T : R) :
  let self := LinearTrajectory.init start_position goal_position T in
  LinearTrajectory.acceleration self :* (LinearTrajectory.total_time self / 2.0)
  = LinearTrajectory.v_max self.
Proof.
  simpl. unfold vmul, smul. simpl. f_equal; ring.
Qed.

Section PolygonalDerivative.

Import PolygonalTrajectory.

Variables (start_position ar_position : vec3) (points : list vec3) (T : R).
Variable self : t.
Hypothesis Hinit : init start_position ar_position points T = inr self.
Hypothesis HT : 0 < T.

(** Strictly inside the window of segment [i] the pose moves at a
    quarter of the velocity the trajectory reports. *)
Lemma polygonal_slope_is_quarter_velocity (i k : nat) (x : R) :
  (i < 4)%nat -> (k < 3)%nat ->
  INR i * T / 4 < x < (INR i + 1) * T / 4 ->
  derivable_pt_lim (fun t => nth k (unwrap (target_pose self t)) 0) x
                   (nth k (unwrap (target_velocity self x)) 0 / 4).
Proof.
  intros Hi Hk [Hlo Hhi].
  pose proof (init_total_time _ _ _ _ _ Hinit) as Htt.
  destruct (init_index _ _ _ _ _ Hinit i Hi) as [seg Hseg].
  destruct (segments_are_linear _ _ _ _ _ Hinit i seg Hseg) as (a & b & Hlin).
  assert (Hsel : forall t, INR i * T / 4 < t <= (INR i + 1) * T / 4 ->
                 find (in_window self t) (seq 0 4) = Some i).
  { intros t [Ht1 Ht2]. apply find_first_window; [exact Hi | now rewrite Htt |].
    rewrite Htt. intros j Hj Hle.
    assert (Hj' : (j + 1 <= i)%nat) by lia.
    apply le_INR in Hj'. rewrite plus_INR in Hj'. simpl in Hj'. nra. }
  destruct (queries_of_find _ _ _ _ _ Hinit x i seg) as [_ Hv];
    [apply Hsel; lra | exact Hseg |].
  rewrite Hv. cbn [unwrap].
  set (d := Rmin (x - INR i * T / 4) ((INR i + 1) * T / 4 - x)).
  assert (Hd : 0 < d) by (apply Rmin_pos; lra).
  apply derivable_pt_lim_local
    with (g := comp (fun u => nth k (LinearTrajectory.target_pose seg u) 0)
                    (fun t => t / 4))
         (d := d); [exact Hd | |].
  - intros t Ht. apply Rabs_def2 in Ht.
    pose proof (Rmin_l (x - INR i * T / 4) ((INR i + 1) * T / 4 - x)).
    pose proof (Rmin_r (x - INR i * T / 4) ((INR i + 1) * T / 4 - x)).
    destruct (queries_of_find _ _ _ _ _ Hinit t i seg) as [Hp _];
      [apply Hsel; unfold d in Ht; lra | exact Hseg |].
    now rewrite Hp.
  - replace (nth k (LinearTrajectory.target_velocity seg (x / 4)) 0 / 4)
      with (nth k (LinearTrajectory.target_velocity seg (x / 4)) 0 * / 4)
      by reflexivity.
    apply derivable_pt_lim_comp.
    + apply derivable_pt_lim_ext
        with (g := fun t => 0 + / 4 * (t - 0) - 0 * (t - 0) ^ 2)
             (l' := / 4 - 2 * 0 * (x - 0)).
      * intros t. field.
      * field.
      * apply derivable_pt_lim_quadratic.
    + apply linear_velocity_is_derivative; [|exact Hk].
      rewrite Hlin. apply linear_init_meet.
Qed.

End PolygonalDerivative.

(** C3, on the polygonal trajectory over the unit square with duration
    4, at time 1/2 and on the first axis: the pose moves with slope 1/8
    while the reported velocity is 1/2, so the velocity is not the
    derivative of the pose. *)
Theorem polygonal_velocity_not_derivative :
  PolygonalTrajectory.init origin origin square 4 = inr square_trajectory
  /\ nth 0 (unwrap (PolygonalTrajectory.target_velocity square_trajectory (1 / 2))) 0
     = 1 / 2
  /\ derivable_pt_lim
       (fun t => nth 0 (unwrap (PolygonalTrajectory.target_pose square_trajectory t)) 0)
       (1 / 2) (1 / 8)
  /\ ~ derivable_pt_lim
       (fun t => nth 0 (unwrap (PolygonalTrajectory.target_pose square_trajectory t)) 0)
       (1 / 2)
       (nth 0 (unwrap (PolygonalTrajectory.target_velocity square_trajectory (1 / 2))) 0).
Proof.
  assert (Hinit : PolygonalTrajectory.init origin origin square 4
                  = inr square_trajectory) by reflexivity.
  assert (Hvel : nth 0 (unwrap (PolygonalTrajectory.target_velocity
                                  square_trajectory (1 / 2))) 0 = 1 / 2).
  { destruct (queries_of_find _ _ _ _ _ Hinit (1 / 2) 0%nat
                (LinearTrajectory.init origin (origin +: Vec3 1 0 0) (4 / 4))) as [_ Hv].
    - apply find_first_window; [lia | simpl; lra | intros j Hj; lia].
    - reflexivity.
    - rewrite Hv. cbn [unwrap].
      unfold LinearTrajectory.target_velocity. simpl.
      destruct (Rle_dec (1 / 2 / 4) (4 / 4 / 2.0)) as [_|Hn].
      + simpl. literals. field.
      + exfalso. apply Hn. literals. lra. }
  assert (Hslope : derivable_pt_lim
            (fun t => nth 0 (unwrap (PolygonalTrajectory.target_pose
                                       square_trajectory t)) 0)
            (1 / 2) (1 / 8)).
  { replace (1 / 8) with
      (nth 0 (unwrap (PolygonalTrajectory.target_velocity
                        square_trajectory (1 / 2))) 0 / 4)
      by (rewrite Hvel; field).
    apply (polygonal_slope_is_quarter_velocity _ _ _ _ _ Hinit) with (i := 0%nat);
      [lra | lia | lia | simpl; lra]. }
  split; [exact Hinit|]. split; [exact Hvel|]. split; [exact Hslope|].
  intros Hbad. rewrite Hvel in Hbad.
  pose proof (uniqueness_limite _ _ _ _ Hslope Hbad). lra.
Qed.

(** ** Construction and the duration *)

(** C2, as stated, fails: with the duration [-1] the three constructors
    succeed. *)
Lemma negative_duration_is_accepted :
  -1 <= 0
  /\ LinearTrajectory.total_time (LinearTrajectory.init origin (Vec3 1 0 0) (-1)) = -1
  /\ (exists self, CircularTrajectory.init origin 1 (-1) = inr self)
  /\ (exists self, PolygonalTrajectory.init origin origin square (-1) = inr self).
Proof.
  split; [lra|]. split; [reflexivity|]. split.
  - eexists. apply circular_init_ok. lra.
  - eexists. reflexivity.
Qed.

Lemma select_total
    (start_position ar_position : vec3) (points : list vec3) (T : R)
    (self : PolygonalTrajectory.t) (time : R) :
  PolygonalTrajectory.init start_position ar_position points T = inr self ->
  exists i seg,
    (i < 4)%nat
    /\ nth_error (PolygonalTrajectory.trajectories self) i = Some seg
    /\ PolygonalTrajectory.select self time = inr seg.
Proof.
  intros Hinit.
  destruct (init_index _ _ _ _ _ Hinit 0) as [seg0 Hseg0]; [lia|].
  unfold PolygonalTrajectory.select. unfold index at 1. rewrite Hseg0.
  unfold bind. rewrite select_loop_find.
  destruct (find (in_window self time) (seq 0 4)) as [i|] eqn:Hfind.
  - assert (Hi : (i < 4)%nat).
    { apply find_some in Hfind as [Hin _]. apply in_seq in Hin. lia. }
    destruct (init_index _ _ _ _ _ Hinit i Hi) as [seg Hseg].
    exists i, seg. split; [exact Hi|]. split; [exact Hseg|].
    unfold index. now rewrite Hseg.
  - exists 0%nat, seg0. split; [lia|]. split; [exact Hseg0 | reflexivity].
Qed.

Lemma linear_negative_duration_start (start_position goal_position : vec3) (T : R) :
  T < 0 ->
  position (LinearTrajectory.target_pose
              (LinearTrajectory.init start_position goal_position T) 0)
  = to_list (start_position -: (goal_position -: start_position)).
Proof.
  intros HT. unfold LinearTrajectory.target_pose. simpl.
  destruct (Rle_dec 0 (T / 2.0)) as [Hle|_]; [exfalso; literals_in Hle; lra|].
  unfold position, hstack, to_list. simpl. apply cons3_eq; literals; field; lra.
Qed.

(** C2, amended: a duration that is zero or negative is not rejected as
    an invalid parameter, for no constructor checks the duration.  A
    negative duration [T] (with [T ** 2] in the range of the floats) is
    accepted and kept by the three constructors: the linear trajectory
    then answers the query at time 0 with [start - (goal - start)], not
    with [start]; the circular one has the negative peak [4*PI/T]; the
    polygonal one has its four segments.  With the duration 0 the
    constructor of the circular trajectory raises [ZeroDivisionError],
    from its division and not from a validation.  The error on the
    parameters that exists, [IndexError] for fewer than four points, is
    raised by the constructor and never by a query: on a polygonal
    trajectory that was built the segment lookup of the queries succeeds
    at every time. *)
Theorem duration_is_not_validated :
  (forall T,
      T < 0 -> representable_square T ->
      (forall start_position goal_position,
          let self := LinearTrajectory.init start_position goal_position T in
          LinearTrajectory.total_time self = T
          /\ position (LinearTrajectory.target_pose self 0)
             = to_list (start_position -: (goal_position -: start_position)))
      /\ (forall center_position radius,
          exists self,
            CircularTrajectory.init center_position radius T = inr self
            /\ CircularTrajectory.total_time self = T
            /\ CircularTrajectory.angular_v_max self = 4 * PI / T)
      /\ (forall start_position ar_position p0 p1 p2 p3 rest,
          exists self,
            PolygonalTrajectory.init start_position ar_position
              (p0 :: p1 :: p2 :: p3 :: rest) T = inr self
            /\ PolygonalTrajectory.total_time self = T
            /\ length (PolygonalTrajectory.trajectories self) = 4%nat))
  /\ (forall center_position radius,
      CircularTrajectory.init center_position radius 0 = inl ZeroDivisionError)
  /\ (forall start_position ar_position points T,
      ((length points < 4)%nat ->
       PolygonalTrajectory.init start_position ar_position points T
       = inl IndexError)
      /\ (forall self time,
          PolygonalTrajectory.init start_position ar_position points T = inr self ->
          exists i seg,
            (i < 4)%nat
            /\ nth_error (PolygonalTrajectory.trajectories self) i = Some seg
            /\ PolygonalTrajectory.select self time = inr seg)).
Proof.
  split; [|split].
  - intros T HT _. split; [|split].
    + intros s g self. split; [reflexivity|].
      now apply linear_negative_duration_start.
    + intros c r.
      assert (Hnz : T <> 0) by lra.
      eexists. split; [now apply circular_init_ok|]. split; [reflexivity|].
      simpl. literals. field. exact Hnz.
    + intros s ar p0 p1 p2 p3 rest.
      eexists. split; [apply init_four|]. split; reflexivity.
  - apply circular_init_zero.
  - intros s ar points T. split.
    + apply init_short.
    + intros self time Hinit. exact (select_total _ _ _ _ _ time Hinit).
Qed.

Lemma duration_is_not_validated_witness :
  -1 < 0
  /\ representable_square (-1)
  /\ (length [Vec3 1 0 0] < 4)%nat
  /\ PolygonalTrajectory.init origin origin square (-1)
     = inr (PolygonalTrajectory.Build (-1)
              (chained_segments origin origin (-1)
                 (Vec3 1 0 0) (Vec3 1 1 0) (Vec3 0 1 0) (Vec3 0 0 0)))
  /\ position (LinearTrajectory.target_pose
                 (LinearTrajectory.init origin (Vec3 1 0 0) (-1)) 0)
     = to_list (origin -: (Vec3 1 0 0 -: origin))
  /\ (exists self,
         CircularTrajectory.init origin 1 (-1) = inr self
         /\ CircularTrajectory.total_time self = -1
         /\ CircularTrajectory.angular_v_max self = 4 * PI / -1)
  /\ PolygonalTrajectory.init origin origin [Vec3 1 0 0] (-1) = inl IndexError
  /\ exists i seg,
      (i < 4)%nat
      /\ nth_error
           (PolygonalTrajectory.trajectories
              (PolygonalTrajectory.Build (-1)
                 (chained_segments origin origin (-1)
                    (Vec3 1 0 0) (Vec3 1 1 0) (Vec3 0 1 0) (Vec3 0 0 0)))) i
         = Some seg
      /\ PolygonalTrajectory.select
           (PolygonalTrajectory.Build (-1)
              (chained_segments origin origin (-1)
                 (Vec3 1 0 0) (Vec3 1 1 0) (Vec3 0 1 0) (Vec3 0 0 0))) 5
         = inr seg.
Proof.
  assert (Hneg : -1 < 0) by lra.
  assert (Hone : 1 <= 10 ^ 150) by (apply pow_R1_Rle; lra).
  assert (Hrep : representable_square (-1)).
  { assert (Hinv : / 10 ^ 150 <= 1).
    { apply Rmult_le_reg_r with (r := 10 ^ 150); [lra|].
      rewrite Rinv_l by lra. lra. }
    unfold representable_square, Rabs.
    destruct (Rcase_abs (-1)) as [_|Hge]; lra. }
  assert (Hlen : (length [Vec3 1 0 0] < 4)%nat) by (simpl; lia).
  assert (Hinit : PolygonalTrajectory.init origin origin square (-1)
                  = inr (PolygonalTrajectory.Build (-1)
                           (chained_segments origin origin (-1)
                              (Vec3 1 0 0) (Vec3 1 1 0) (Vec3 0 1 0) (Vec3 0 0 0))))
    by reflexivity.
  destruct duration_is_not_validated as (Hnegative & _ & Hpoints).
  destruct (Hnegative (-1) Hneg Hrep) as (Hlin & Hcirc & _).
  destruct (Hpoints origin origin [Vec3 1 0 0] (-1)) as [Hshort _].
  destruct (Hpoints origin origin square (-1)) as [_ Hquery].
  split; [exact Hneg|]. split; [exact Hrep|]. split; [exact Hlen|].
  split; [exact Hinit|].
  split; [exact (proj2 (Hlin origin (Vec3 1 0 0)))|].
  split; [exact (Hcirc origin 1)|].
  split; [exact (Hshort Hlen)|].
  exact (Hquery _ 5 Hinit).
Defined.

(** ** The rescaled time of the polygonal queries, on an example *)

(** At time 2 the square trajectory answers with segment 1 at the time
    2/4: on the second axis that is 1/2, where the same segment gives 1
    at the local time [2 - 1*4/4] and -1 at the time 2. *)
Example polygonal_rescaled_time :
  let seg1 :=
    LinearTrajectory.init (origin +: Vec3 1 0 0) (origin +: Vec3 1 1 0) (4 / 4) in
  nth_error (PolygonalTrajectory.trajectories square_trajectory) 1 = Some seg1
  /\ PolygonalTrajectory.target_pose square_trajectory 2
     = inr (LinearTrajectory.target_pose seg1 (2 / 4))
  /\ nth 1 (LinearTrajectory.target_pose seg1 (2 / 4)) 0 = 1 / 2
  /\ nth 1 (LinearTrajectory.target_pose seg1 (2 - 1 * 4 / 4)) 0 = 1
  /\ nth 1 (LinearTrajectory.target_pose seg1 2) 0 = -1.
Proof.
  intros seg1.
  assert (Hinit : PolygonalTrajectory.init origin origin square 4
                  = inr square_trajectory) by reflexivity.
  split; [reflexivity|]. split.
  - apply (queries_of_find _ _ _ _ _ Hinit 2 1%nat seg1); [|reflexivity].
    apply find_first_window; [lia | simpl; lra |].
    intros j Hj. assert (j = 0)%nat as -> by lia. simpl. lra.
  - unfold LinearTrajectory.target_pose, seg1. simpl.
    destruct (Rle_dec (2 / 4) (4 / 4 / 2.0)) as [_|Hn];
      [|exfalso; apply Hn; literals; lra].
    destruct (Rle_dec (2 - 1 * 4 / 4) (4 / 4 / 2.0)) as [Hle|_];
      [exfalso; literals_in Hle; lra|].
    destruct (Rle_dec 2 (4 / 4 / 2.0)) as [Hle|_];
      [exfalso; literals_in Hle; lra|].
    simpl. literals. repeat split; field.
Qed.

(** * Further properties of the trajectories *)

(** ** The linear trajectory in closed form *)

Section LinearClosedForm.

Variables (start_position goal_position : vec3) (T : R).
Hypothesis HT : 0 < T.

Let self := LinearTrajectory.init start_position goal_position T.

(** At every time, inside the duration or not, the position is the
    start moved by [progress T t] of the way to the goal. *)
Lemma linear_pose_progress (t : R) :
  LinearTrajectory.target_pose self t
  = hstack (start_position +: progress T t *: (goal_position -: start_position))
           [0; 1; 0; 0].
Proof.
  unfold LinearTrajectory.target_pose, self, progress. simpl.
  rewrite literal_two.
  destruct (Rle_dec t (T / 2)) as [Hle|Hgt];
    unfold hstack, to_list; simpl; apply cons3_eq; literals; field; lra.
Qed.

(** The velocity is the displacement scaled by [4t/T^2] while
    accelerating and by [4(T-t)/T^2] afterwards. *)
Lemma linear_velocity_closed (t : R) :
  LinearTrajectory.target_velocity self t
  = hstack ((if Rle_dec t (T / 2) then 4 * t / T ^ 2 else 4 * (T - t) / T ^ 2)
            *: (goal_position -: start_position))
           [0; 0; 0].
Proof.
  unfold LinearTrajectory.target_velocity, self. simpl.
  rewrite literal_two.
  destruct (Rle_dec t (T / 2)) as [Hle|Hgt];
    unfold hstack, to_list, zeros3; simpl; apply cons3_eq; literals; field; lra.
Qed.

End LinearClosedForm.

Lemma progress_range (T t : R) :
  0 < T -> 0 <= t <= T -> 0 <= progress T t <= 1.
Proof.
  intros HT [H0 H1]. unfold progress.
  assert (Hu : 0 <= t / T <= 1).
  { split.
    - apply Rmult_le_pos; [exact H0 | left; now apply Rinv_0_lt_compat].
    - apply Rmult_le_reg_r with (r := T); [exact HT|].
      replace (t / T * T) with t by (field; lra). lra. }
  assert (Hhalf : t <= T / 2 -> t / T <= / 2).
  { intros Hle. apply Rmult_le_reg_r with (r := T); [exact HT|].
    replace (t / T * T) with t by (field; lra). lra. }
  assert (Hhalf' : ~ t <= T / 2 -> / 2 <= t / T).
  { intros Hgt. apply Rmult_le_reg_r with (r := T); [exact HT|].
    replace (t / T * T) with t by (field; lra). lra. }
  destruct (Rle_dec t (T / 2)) as [Hle|Hgt].
  - specialize (Hhalf Hle). nra.
  - specialize (Hhalf' Hgt). nra.
Qed.

Lemma progress_mono (T t1 t2 : R) :
  0 < T -> 0 <= t1 -> t1 <= t2 -> t2 <= T -> progress T t1 <= progress T t2.
Proof.
  intros HT H0 H12 H2. unfold progress.
  assert (Hdiv : forall t, t / T * T = t) by (intros t; field; lra).
  assert (Hu1 : 0 <= t1 / T).
  { apply Rmult_le_pos; [exact H0 | left; now apply Rinv_0_lt_compat]. }
  assert (Hu12 : t1 / T <= t2 / T).
  { apply Rmult_le_compat_r; [left; now apply Rinv_0_lt_compat | exact H12]. }
  assert (Hu2 : t2 / T <= 1).
  { apply Rmult_le_reg_r with (r := T); [exact HT|]. rewrite Hdiv. lra. }
  assert (Hh : forall t, t <= T / 2 -> t / T <= / 2).
  { intros t Hle. apply Rmult_le_reg_r with (r := T); [exact HT|].
    rewrite Hdiv. lra. }
  assert (Hh' : forall t, ~ t <= T / 2 -> / 2 <= t / T).
  { intros t Hgt. apply Rmult_le_reg_r with (r := T); [exact HT|].
    rewrite Hdiv. lra. }
  destruct (Rle_dec t1 (T / 2)) as [Hle1|Hgt1];
    destruct (Rle_dec t2 (T / 2)) as [Hle2|Hgt2].
  - nra.
  - specialize (Hh t1 Hle1). specialize (Hh' t2 Hgt2). nra.
  - exfalso. lra.
  - nra.
Qed.

(** X1: during its duration a linear trajectory stays on the straight
    segment from start to goal and never moves back: at two times
    [t1 <= t2] of [[0, T]] the positions are the start moved by the
    fractions [l1 <= l2] of the displacement, both in [[0, 1]]. *)
Theorem linear_stays_on_segment
    (start_position goal_position : vec3) (T t1 t2 : R) :
  0 < T -> 0 <= t1 -> t1 <= t2 -> t2 <= T ->
  let self := LinearTrajectory.init start_position goal_position T in
  exists l1 l2,
    0 <= l1 /\ l1 <= l2 /\ l2 <= 1
    /\ position (LinearTrajectory.target_pose self t1)
       = to_list (start_position +: l1 *: (goal_position -: start_position))
    /\ position (LinearTrajectory.target_pose self t2)
       = to_list (start_position +: l2 *: (goal_position -: start_position)).
Proof.
  intros HT H0 H12 H2 self.
  exists (progress T t1), (progress T t2).
  pose proof (progress_range T t1 HT ltac:(lra)) as [Hl1 _].
  pose proof (progress_range T t2 HT ltac:(lra)) as [_ Hl2].
  pose proof (progress_mono T t1 t2 HT H0 H12 H2) as Hm.
  split; [exact Hl1|]. split; [exact Hm|]. split; [exact Hl2|].
  unfold self. rewrite !linear_pose_progress by exact HT.
  split; reflexivity.
Qed.

Lemma linear_stays_on_segment_witness :
  0 < 2 /\ 0 <= 1 /\ 1 <= 2 /\ 2 <= 2
  /\ exists l1 l2,
    0 <= l1 /\ l1 <= l2 /\ l2 <= 1
    /\ position (LinearTrajectory.target_pose
                   (LinearTrajectory.init origin (Vec3 1 0 0) 2) 1)
       = to_list (origin +: l1 *: (Vec3 1 0 0 -: origin))
    /\ position (LinearTrajectory.target_pose
                   (LinearTrajectory.init origin (Vec3 1 0 0) 2) 2)
       = to_list (origin +: l2 *: (Vec3 1 0 0 -: origin)).
Proof.
  assert (H2 : 0 < 2) by lra.
  assert (H0 : 0 <= 1) by lra.
  assert (H12 : 1 <= 2) by lra.
  assert (H22 : 2 <= 2) by lra.
  repeat (split; [assumption|]).
  exact (linear_stays_on_segment origin (Vec3 1 0 0) 2 1 2 H2 H0 H12 H22).
Defined.

(** X2: halfway through its duration a linear trajectory is halfway
    between start and goal, and moves at its peak velocity, twice the
    mean velocity [(goal - start)/T]. *)
Theorem linear_midpoint (start_position goal_position : vec3) (T : R) :
  0 < T ->
  let self := LinearTrajectory.init start_position goal_position T in
  position (LinearTrajectory.target_pose self (T / 2))
  = to_list (start_position +: / 2 *: (goal_position -: start_position))
  /\ linear_part (LinearTrajectory.target_velocity self (T / 2))
     = to_list (2 / T *: (goal_position -: start_position))
  /\ LinearTrajectory.v_max self = 2 / T *: (goal_position -: start_position).
Proof.
  intros HT self. unfold self.
  rewrite linear_pose_progress, linear_velocity_closed by exact HT.
  unfold progress.
  destruct (Rle_dec (T / 2) (T / 2)) as [_|Hn]; [|exfalso; apply Hn; lra].
  split; [|split].
  - unfold position, hstack, to_list. simpl. apply cons3_eq; field; lra.
  - unfold linear_part, hstack, to_list. simpl. apply cons3_eq; field; lra.
  - simpl. unfold smul, vdiv, vmul, vsub. simpl. f_equal; literals; field; lra.
Qed.

Lemma linear_midpoint_witness :
  0 < 2
  /\ position (LinearTrajectory.target_pose
                 (LinearTrajectory.init origin (Vec3 1 0 0) 2) (2 / 2))
     = to_list (origin +: / 2 *: (Vec3 1 0 0 -: origin))
  /\ linear_part (LinearTrajectory.target_velocity
                    (LinearTrajectory.init origin (Vec3 1 0 0) 2) (2 / 2))
     = to_list (2 / 2 *: (Vec3 1 0 0 -: origin))
  /\ LinearTrajectory.v_max (LinearTrajectory.init origin (Vec3 1 0 0) 2)
     = 2 / 2 *: (Vec3 1 0 0 -: origin).
Proof.
  assert (H2 : 0 < 2) by lra.
  split; [exact H2|].
  exact (linear_midpoint origin (Vec3 1 0 0) 2 H2).
Defined.

(** X3: during its duration the velocity of a linear trajectory points
    from start to goal and never exceeds the peak velocity: it is the
    displacement scaled by a factor between 0 and [2/T]. *)
Theorem linear_velocity_bounded
    (start_position goal_position : vec3) (T t : R) :
  0 < T -> 0 <= t <= T ->
  let self := LinearTrajectory.init start_position goal_position T in
  exists m,
    0 <= m <= 2 / T
    /\ LinearTrajectory.target_velocity self t
       = hstack (m *: (goal_position -: start_position)) [0; 0; 0].
Proof.
  intros HT [H0 H1] self. unfold self.
  rewrite linear_velocity_closed by exact HT.
  assert (HT2 : 0 < T ^ 2) by nra.
  assert (Hinv : 0 < / T ^ 2) by now apply Rinv_0_lt_compat.
  assert (Hpeak : 2 / T = 2 * T * / T ^ 2) by (field; lra).
  destruct (Rle_dec t (T / 2)) as [Hle|Hgt].
  - exists (4 * t / T ^ 2). split; [|reflexivity].
    rewrite Hpeak. unfold Rdiv. split.
    + apply Rmult_le_pos; [lra | lra].
    + apply Rmult_le_compat_r; lra.
  - exists (4 * (T - t) / T ^ 2). split; [|reflexivity].
    rewrite Hpeak. unfold Rdiv. split.
    + apply Rmult_le_pos; [lra | lra].
    + apply Rmult_le_compat_r; lra.
Qed.

Lemma linear_velocity_bounded_witness :
  0 < 2 /\ 0 <= 1 <= 2
  /\ exists m,
    0 <= m <= 2 / 2
    /\ LinearTrajectory.target_velocity
         (LinearTrajectory.init origin (Vec3 1 0 0) 2) 1
       = hstack (m *: (Vec3 1 0 0 -: origin)) [0; 0; 0].
Proof.
  assert (H2 : 0 < 2) by lra.
  assert (Ht : 0 <= 1 <= 2) by lra.
  split; [exact H2|]. split; [exact Ht|].
  exact (linear_velocity_bounded origin (Vec3 1 0 0) 2 1 H2 Ht).
Defined.

Lemma progress_reverse (T t : R) :
  0 < T -> progress T (T - t) = 1 - progress T t.
Proof.
  intros HT. unfold progress.
  destruct (Rle_dec (T - t) (T / 2)) as [Hr|Hr];
    destruct (Rle_dec t (T / 2)) as [Hl|Hl].
  - assert (t = T / 2) as -> by lra. field. lra.
  - field. lra.
  - field. lra.
  - exfalso. lra.
Qed.

(** X4: a linear trajectory is symmetric in time: the positions at [t]
    and at [T - t] are mirror images about the middle of the segment
    (they add up to start plus goal) and the velocities there are the
    same, at every time [t]. *)
Theorem linear_time_symmetry
    (start_position goal_position : vec3) (T t : R) :
  0 < T ->
  let self := LinearTrajectory.init start_position goal_position T in
  pos3 (LinearTrajectory.target_pose self t)
  +: pos3 (LinearTrajectory.target_pose self (T - t))
  = start_position +: goal_position
  /\ LinearTrajectory.target_velocity self (T - t)
     = LinearTrajectory.target_velocity self t.
Proof.
  intros HT self. unfold self. split.
  - rewrite !linear_pose_progress by exact HT.
    rewrite (progress_reverse T t HT).
    unfold pos3, hstack, to_list, vadd, smul, vsub. simpl.
    destruct start_position as [sx sy sz], goal_position as [gx gy gz]. simpl.
    f_equal; ring.
  - rewrite !linear_velocity_closed by exact HT.
    destruct (Rle_dec (T - t) (T / 2)) as [Hr|Hr];
      destruct (Rle_dec t (T / 2)) as [Hl|Hl].
    + assert (t = T / 2) as -> by lra.
      replace (T - T / 2) with (T / 2) by field. reflexivity.
    + reflexivity.
    + replace (T - (T - t)) with t by ring. reflexivity.
    + exfalso. lra.
Qed.

Lemma linear_time_symmetry_witness :
  0 < 2
  /\ pos3 (LinearTrajectory.target_pose
             (LinearTrajectory.init origin (Vec3 1 0 0) 2) (1 / 2))
     +: pos3 (LinearTrajectory.target_pose
                (LinearTrajectory.init origin (Vec3 1 0 0) 2) (2 - 1 / 2))
     = origin +: Vec3 1 0 0
  /\ LinearTrajectory.target_velocity
       (LinearTrajectory.init origin (Vec3 1 0 0) 2) (2 - 1 / 2)
     = LinearTrajectory.target_velocity
         (LinearTrajectory.init origin (Vec3 1 0 0) 2) (1 / 2).
Proof.
  assert (H2 : 0 < 2) by lra.
  split; [exact H2|].
  exact (linear_time_symmetry origin (Vec3 1 0 0) 2 (1 / 2) H2).
Defined.

(** X5: queries outside [[0, T]] are answered, not clamped: a time [d]
    past the end, the position has gone back by [2(d/T)^2] of the
    displacement and the velocity points backwards; a time [d] before
    the start, the position is the one of the time [d] after it, for
    [d] up to half the duration, and the velocity is the opposite
    one. *)
Theorem linear_outside_duration
    (start_position goal_position : vec3) (T d : R) :
  0 < T -> 0 < d ->
  let self := LinearTrajectory.init start_position goal_position T in
  LinearTrajectory.target_pose self (T + d)
  = hstack (goal_position +: (- (2 * (d / T) ^ 2)) *: (goal_position -: start_position))
           [0; 1; 0; 0]
  /\ LinearTrajectory.target_velocity self (T + d)
     = hstack ((- (4 * d / T ^ 2)) *: (goal_position -: start_position)) [0; 0; 0]
  /\ (d <= T / 2 ->
      LinearTrajectory.target_pose self (- d) = LinearTrajectory.target_pose self d)
  /\ LinearTrajectory.target_velocity self (- d)
     = hstack ((- (4 * d / T ^ 2)) *: (goal_position -: start_position)) [0; 0; 0].
Proof.
  intros HT Hd self. unfold self.
  rewrite !linear_velocity_closed, !linear_pose_progress by exact HT.
  unfold progress.
  destruct (Rle_dec (T + d) (T / 2)) as [Hle|_]; [exfalso; lra|].
  destruct (Rle_dec (- d) (T / 2)) as [_|Hn]; [|exfalso; apply Hn; lra].
  split; [|split; [|split]].
  - unfold hstack, to_list. simpl. apply cons3_eq; field; lra.
  - unfold hstack, to_list. simpl. apply cons3_eq; field; lra.
  - intros Hhalf.
    destruct (Rle_dec d (T / 2)) as [_|Hn]; [|contradiction].
    unfold hstack, to_list. simpl. apply cons3_eq; field; lra.
  - unfold hstack, to_list. simpl. apply cons3_eq; field; lra.
Qed.

Lemma linear_outside_duration_witness :
  0 < 2 /\ 0 < 1
  /\ LinearTrajectory.target_pose (LinearTrajectory.init origin (Vec3 1 0 0) 2) (2 + 1)
     = hstack (Vec3 1 0 0 +: (- (2 * (1 / 2) ^ 2)) *: (Vec3 1 0 0 -: origin))
              [0; 1; 0; 0]
  /\ LinearTrajectory.target_velocity
       (LinearTrajectory.init origin (Vec3 1 0 0) 2) (2 + 1)
     = hstack ((- (4 * 1 / 2 ^ 2)) *: (Vec3 1 0 0 -: origin)) [0; 0; 0]
  /\ (1 <= 2 / 2 ->
      LinearTrajectory.target_pose (LinearTrajectory.init origin (Vec3 1 0 0) 2) (- 1)
      = LinearTrajectory.target_pose (LinearTrajectory.init origin (Vec3 1 0 0) 2) 1)
  /\ LinearTrajectory.target_velocity
       (LinearTrajectory.init origin (Vec3 1 0 0) 2) (- 1)
     = hstack ((- (4 * 1 / 2 ^ 2)) *: (Vec3 1 0 0 -: origin)) [0; 0; 0].
Proof.
  assert (H2 : 0 < 2) by lra.
  assert (H1 : 0 < 1) by lra.
  split; [exact H2|]. split; [exact H1|].
  exact (linear_outside_duration origin (Vec3 1 0 0) 2 1 H2 H1).
Defined.

(** X6: a linear trajectory whose goal is its start stays there with
    the zero twist at every time, whatever the non-zero duration. *)
Theorem linear_stationary (start_position : vec3) (T t : R) :
  T <> 0 ->
  let self := LinearTrajectory.init start_position start_position T in
  LinearTrajectory.target_pose self t = hstack start_position [0; 1; 0; 0]
  /\ LinearTrajectory.target_velocity self t = [0; 0; 0; 0; 0; 0].
Proof.
  intros HT self. unfold self.
  unfold LinearTrajectory.target_pose, LinearTrajectory.target_velocity. simpl.
  destruct (Rle_dec t (T / 2.0));
    unfold hstack, to_list, zeros3; simpl;
    split; apply cons3_eq; literals; field; exact HT.
Qed.

Lemma linear_stationary_witness :
  3 <> 0
  /\ LinearTrajectory.target_pose
       (LinearTrajectory.init (Vec3 1 2 3) (Vec3 1 2 3) 3) 1
     = hstack (Vec3 1 2 3) [0; 1; 0; 0]
  /\ LinearTrajectory.target_velocity
       (LinearTrajectory.init (Vec3 1 2 3) (Vec3 1 2 3) 3) 1
     = [0; 0; 0; 0; 0; 0].
Proof.
  assert (H3 : 3 <> 0) by lra.
  split; [exact H3|].
  exact (linear_stationary (Vec3 1 2 3) 3 1 H3).
Defined.

(** ** The circular trajectory *)

Lemma sin2_cos2_pow (x : R) : cos x ^ 2 + sin x ^ 2 = 1.
Proof.
  pose proof (sin2_cos2 x) as H. unfold Rsqr in H. simpl. lra.
Qed.

(** X7: at every time the position of a circular trajectory is on the
    circle of the given radius around the centre, in the horizontal
    plane of the centre. *)
Theorem circular_stays_on_circle
    (center_position : vec3) (radius T : R) (self : CircularTrajectory.t) (t : R) :
  CircularTrajectory.init center_position radius T = inr self ->
  let p := pos3 (CircularTrajectory.target_pose self t) in
  (vx p - vx center_position) ^ 2 + (vy p - vy center_position) ^ 2 = radius ^ 2
  /\ vz p = vz center_position.
Proof.
  intros Hinit p. unfold p.
  rewrite (circular_pose_of_theta _ _ _ _ Hinit).
  unfold pos3, hstack, to_list, vadd, smul. simpl.
  pose proof (sin2_cos2_pow (CircularTrajectory.theta self t)) as Hsc.
  simpl in Hsc. split; [nra | ring].
Qed.

Lemma circular_stays_on_circle_witness :
  CircularTrajectory.init (Vec3 0 0 3) 1 7
  = inr (CircularTrajectory.Build 7 (Vec3 0 0 3) 1
           (2 * PI * 4.0 / 7 ^ 2) (7 / 2.0 * (2 * PI * 4.0 / 7 ^ 2)) [0; 1; 0; 0])
  /\ (let p :=
        pos3 (CircularTrajectory.target_pose
                (CircularTrajectory.Build 7 (Vec3 0 0 3) 1
                   (2 * PI * 4.0 / 7 ^ 2) (7 / 2.0 * (2 * PI * 4.0 / 7 ^ 2))
                   [0; 1; 0; 0]) 2) in
      (vx p - vx (Vec3 0 0 3)) ^ 2 + (vy p - vy (Vec3 0 0 3)) ^ 2 = 1 ^ 2
      /\ vz p = vz (Vec3 0 0 3)).
Proof.
  assert (H7 : (7 : R) <> 0) by lra.
  pose proof (circular_init_ok (Vec3 0 0 3) 1 7 H7) as Hinit.
  split; [exact Hinit|].
  exact (circular_stays_on_circle (Vec3 0 0 3) 1 7 _ 2 Hinit).
Defined.

(** X8: at every time the velocity of a circular trajectory is
    horizontal and tangent to the circle (orthogonal to the radius
    through the position), and its speed is [|radius * theta_dot|]. *)
Theorem circular_velocity_tangent
    (center_position : vec3) (radius T : R) (self : CircularTrajectory.t) (t : R) :
  CircularTrajectory.init center_position radius T = inr self ->
  let p := pos3 (CircularTrajectory.target_pose self t) in
  let v := pos3 (CircularTrajectory.target_velocity self t) in
  dot (p -: center_position) v = 0
  /\ vz v = 0
  /\ dot v v = (radius * CircularTrajectory.theta_dot self t) ^ 2.
Proof.
  intros Hinit p v. unfold p, v.
  rewrite (circular_pose_of_theta _ _ _ _ Hinit).
  destruct (circular_init_inv _ _ _ _ Hinit) as [_ Hself].
  assert (Hr : CircularTrajectory.radius self = radius) by now rewrite Hself.
  unfold CircularTrajectory.target_velocity. rewrite Hr.
  unfold dot, pos3, hstack, to_list, vadd, vsub, smul. simpl.
  pose proof (sin2_cos2_pow (CircularTrajectory.theta self t)) as Hsc.
  simpl in Hsc.
  set (th := CircularTrajectory.theta self t) in *.
  set (w := CircularTrajectory.theta_dot self t).
  split; [ring|]. split; [ring|].
  replace (radius * w * - sin th * (radius * w * - sin th)
           + radius * w * cos th * (radius * w * cos th)
           + radius * w * 0 * (radius * w * 0))
    with (radius * w * (radius * w) * (cos th * (cos th * 1) + sin th * (sin th * 1)))
    by ring.
  rewrite Hsc. ring.
Qed.

Lemma circular_velocity_tangent_witness :
  CircularTrajectory.init (Vec3 0 0 3) 1 7
  = inr (CircularTrajectory.Build 7 (Vec3 0 0 3) 1
           (2 * PI * 4.0 / 7 ^ 2) (7 / 2.0 * (2 * PI * 4.0 / 7 ^ 2)) [0; 1; 0; 0])
  /\ (let self :=
        CircularTrajectory.Build 7 (Vec3 0 0 3) 1
          (2 * PI * 4.0 / 7 ^ 2) (7 / 2.0 * (2 * PI * 4.0 / 7 ^ 2)) [0; 1; 0; 0] in
      let p := pos3 (CircularTrajectory.target_pose self 2) in
      let v := pos3 (CircularTrajectory.target_velocity self 2) in
      dot (p -: Vec3 0 0 3) v = 0
      /\ vz v = 0
      /\ dot v v = (1 * CircularTrajectory.theta_dot self 2) ^ 2).
Proof.
  assert (H7 : (7 : R) <> 0) by lra.
  pose proof (circular_init_ok (Vec3 0 0 3) 1 7 H7) as Hinit.
  split; [exact Hinit|].
  exact (circular_velocity_tangent (Vec3 0 0 3) 1 7 _ 2 Hinit).
Defined.

Section CircularAngle.

Variables (center_position : vec3) (radius T : R).
Variable self : CircularTrajectory.t.
Hypothesis HT : 0 < T.
Hypothesis Hinit : CircularTrajectory.init center_position radius T = inr self.

Lemma theta_progress (t : R) :
  CircularTrajectory.theta self t = 2 * PI * progress T t.
Proof.
  destruct (circular_fields _ _ _ _ HT Hinit) as (Htt & _ & _ & Ha & Hv).
  unfold CircularTrajectory.theta, progress. rewrite Htt, Ha, Hv.
  rewrite literal_two.
  destruct (Rle_dec t (T / 2)); literals; field; lra.
Qed.

Lemma theta_dot_closed (t : R) :
  CircularTrajectory.theta_dot self t
  = if Rle_dec t (T / 2) then 8 * PI * t / T ^ 2 else 8 * PI * (T - t) / T ^ 2.
Proof.
  destruct (circular_fields _ _ _ _ HT Hinit) as (Htt & _ & _ & Ha & Hv).
  unfold CircularTrajectory.theta_dot. rewrite Htt, Ha, Hv.
  rewrite literal_two.
  destruct (Rle_dec t (T / 2)); field; lra.
Qed.

End CircularAngle.

(** X9: during the duration of a circular trajectory the angle grows,
    never decreasing, from 0 to [2*PI], and the angular velocity stays
    between 0 and its peak [angular_v_max = 4*PI/T]. *)
Theorem circular_angle_monotone (center_position : vec3) (radius T t1 t2 : R) :
  0 < T -> 0 <= t1 -> t1 <= t2 -> t2 <= T ->
  exists self,
    CircularTrajectory.init center_position radius T = inr self
    /\ 0 <= CircularTrajectory.theta self t1
    /\ CircularTrajectory.theta self t1 <= CircularTrajectory.theta self t2
    /\ CircularTrajectory.theta self t2 <= 2 * PI
    /\ 0 <= CircularTrajectory.theta_dot self t1
    /\ CircularTrajectory.theta_dot self t1 <= CircularTrajectory.angular_v_max self
    /\ CircularTrajectory.angular_v_max self = 4 * PI / T.
Proof.
  intros HT H0 H12 H2.
  assert (Hnz : T <> 0) by lra.
  pose proof (circular_init_ok center_position radius T Hnz) as Hinit.
  eexists. split; [exact Hinit|].
  rewrite !(theta_progress _ _ _ _ HT Hinit), (theta_dot_closed _ _ _ _ HT Hinit).
  destruct (circular_fields _ _ _ _ HT Hinit) as (_ & _ & _ & _ & Hv).
  rewrite Hv.
  pose proof PI_RGT_0 as Hpi.
  pose proof (progress_range T t1 HT ltac:(lra)) as [Hl1 _].
  pose proof (progress_range T t2 HT ltac:(lra)) as [_ Hl2].
  pose proof (progress_mono T t1 t2 HT H0 H12 H2) as Hm.
  assert (HT2 : 0 < T ^ 2) by nra.
  assert (Hinv : 0 < / T ^ 2) by now apply Rinv_0_lt_compat.
  assert (Hpeak : 4 * PI / T = 4 * PI * T * / T ^ 2) by (field; lra).
  split; [nra|]. split; [nra|]. split; [nra|].
  split; [|split; [|reflexivity]].
  - destruct (Rle_dec t1 (T / 2)); unfold Rdiv;
      apply Rmult_le_pos; try lra; nra.
  - rewrite Hpeak.
    destruct (Rle_dec t1 (T / 2)); unfold Rdiv;
      apply Rmult_le_compat_r; try lra; nra.
Qed.

Lemma circular_angle_monotone_witness :
  0 < 7 /\ 0 <= 1 /\ 1 <= 2 /\ 2 <= 7
  /\ exists self,
    CircularTrajectory.init (Vec3 0 0 3) 1 7 = inr self
    /\ 0 <= CircularTrajectory.theta self 1
    /\ CircularTrajectory.theta self 1 <= CircularTrajectory.theta self 2
    /\ CircularTrajectory.theta self 2 <= 2 * PI
    /\ 0 <= CircularTrajectory.theta_dot self 1
    /\ CircularTrajectory.theta_dot self 1 <= CircularTrajectory.angular_v_max self
    /\ CircularTrajectory.angular_v_max self = 4 * PI / 7.
Proof.
  assert (H7 : 0 < 7) by lra.
  assert (H0 : 0 <= 1) by lra.
  assert (H12 : 1 <= 2) by lra.
  assert (H2 : 2 <= 7) by lra.
  repeat (split; [assumption|]).
  exact (circular_angle_monotone (Vec3 0 0 3) 1 7 1 2 H7 H0 H12 H2).
Defined.

(** X10: halfway through its duration a circular trajectory is at the
    point opposite to its starting point, [center - radius*(1,0,0)],
    where the angle is [PI]. *)
Theorem circular_half_turn (center_position : vec3) (radius T : R) :
  0 < T ->
  exists self,
    CircularTrajectory.init center_position radius T = inr self
    /\ CircularTrajectory.theta self (T / 2) = PI
    /\ position (CircularTrajectory.target_pose self (T / 2))
       = to_list (center_position +: radius *: Vec3 (-1) 0 0).
Proof.
  intros HT.
  assert (Hnz : T <> 0) by lra.
  pose proof (circular_init_ok center_position radius T Hnz) as Hinit.
  eexists. split; [exact Hinit|].
  replace (T / 2) with (T / 2.0) by (rewrite literal_two; reflexivity).
  pose proof (theta_mid _ _ _ _ HT Hinit) as Hmid.
  split; [exact Hmid|].
  rewrite (circular_pose_of_theta _ _ _ _ Hinit), Hmid, cos_PI, sin_PI.
  reflexivity.
Qed.

Lemma circular_half_turn_witness :
  0 < 7
  /\ exists self,
    CircularTrajectory.init (Vec3 0 0 3) 1 7 = inr self
    /\ CircularTrajectory.theta self (7 / 2) = PI
    /\ position (CircularTrajectory.target_pose self (7 / 2))
       = to_list (Vec3 0 0 3 +: 1 *: Vec3 (-1) 0 0).
Proof.
  assert (H7 : 0 < 7) by lra.
  split; [exact H7|].
  exact (circular_half_turn (Vec3 0 0 3) 1 7 H7).
Defined.

Lemma theta_reverse (center_position : vec3) (radius T : R)
    (self : CircularTrajectory.t) (t : R) :
  0 < T ->
  CircularTrajectory.init center_position radius T = inr self ->
  CircularTrajectory.theta self (T - t) = 2 * PI - CircularTrajectory.theta self t.
Proof.
  intros HT Hinit.
  rewrite !(theta_progress _ _ _ _ HT Hinit), (progress_reverse T t HT). ring.
Qed.

Lemma cos_sin_reverse (th : R) :
  cos (2 * PI - th) = cos th /\ sin (2 * PI - th) = - sin th.
Proof.
  replace (2 * PI - th) with (- th + 2 * INR 1 * PI) by (simpl; ring).
  rewrite cos_period, sin_period. split; [apply cos_neg | apply sin_neg].
Qed.

(** X11: a circular trajectory is symmetric in time: the angle at
    [T - t] is [2*PI] minus the angle at [t], so the position at
    [T - t] is the one at [t] reflected in the diameter through the
    starting point, at every time [t]. *)
Theorem circular_time_symmetry (center_position : vec3) (radius T t : R) :
  0 < T ->
  exists self,
    CircularTrajectory.init center_position radius T = inr self
    /\ CircularTrajectory.theta self (T - t)
       = 2 * PI - CircularTrajectory.theta self t
    /\ let p := pos3 (CircularTrajectory.target_pose self t) in
       let q := pos3 (CircularTrajectory.target_pose self (T - t)) in
       vx q = vx p
       /\ vy q - vy center_position = - (vy p - vy center_position)
       /\ vz q = vz p.
Proof.
  intros HT.
  assert (Hnz : T <> 0) by lra.
  pose proof (circular_init_ok center_position radius T Hnz) as Hinit.
  eexists. split; [exact Hinit|].
  pose proof (theta_reverse _ _ _ _ t HT Hinit) as Hth.
  split; [exact Hth|].
  rewrite !(circular_pose_of_theta _ _ _ _ Hinit), Hth.
  destruct (cos_sin_reverse
              (CircularTrajectory.theta
                 (CircularTrajectory.Build T center_position radius
                    (2 * PI * 4.0 / T ^ 2) (T / 2.0 * (2 * PI * 4.0 / T ^ 2))
                    [0; 1; 0; 0]) t)) as [Hc Hs].
  rewrite Hc, Hs.
  unfold pos3, hstack, to_list, vadd, smul. cbn [nth app vx vy vz].
  repeat split; ring.
Qed.

Lemma circular_time_symmetry_witness :
  0 < 7
  /\ exists self,
    CircularTrajectory.init (Vec3 0 0 3) 1 7 = inr self
    /\ CircularTrajectory.theta self (7 - 2)
       = 2 * PI - CircularTrajectory.theta self 2
    /\ let p := pos3 (CircularTrajectory.target_pose self 2) in
       let q := pos3 (CircularTrajectory.target_pose self (7 - 2)) in
       vx q = vx p
       /\ vy q - vy (Vec3 0 0 3) = - (vy p - vy (Vec3 0 0 3))
       /\ vz q = vz p.
Proof.
  assert (H7 : 0 < 7) by lra.
  split; [exact H7|].
  exact (circular_time_symmetry (Vec3 0 0 3) 1 7 2 H7).
Defined.

(** ** The polygonal trajectory *)

Lemma progress_scale (T t : R) :
  0 < T -> progress (T / 4) (t / 4) = progress T t.
Proof.
  intros HT. unfold progress.
  destruct (Rle_dec (t / 4) (T / 4 / 2)) as [Hl|Hl];
    destruct (Rle_dec t (T / 2)) as [Hr|Hr]; try (exfalso; lra);
    field; lra.
Qed.

Section PolygonalCoverage.

Variables (start_position ar_position : vec3) (points : list vec3) (T : R).
Variable self : PolygonalTrajectory.t.
Hypothesis Hinit :
  PolygonalTrajectory.init start_position ar_position points T = inr self.
Hypothesis HT : 0 < T.

(** The answer of the queries once the window of the time is known. *)
Lemma polygonal_queries_in_window (i : nat) (seg : LinearTrajectory.t) (t : R) :
  (i < 4)%nat ->
  nth_error (PolygonalTrajectory.trajectories self) i = Some seg ->
  t <= (INR i + 1) * T / 4 ->
  (forall j, (j < i)%nat -> ~ t <= (INR j + 1) * T / 4) ->
  PolygonalTrajectory.target_pose self t
  = inr (hstack (LinearTrajectory.start_position seg
                 +: progress T t
                    *: (LinearTrajectory.goal_position seg
                        -: LinearTrajectory.start_position seg))
                [0; 1; 0; 0])
  /\ PolygonalTrajectory.target_velocity self t
     = inr (LinearTrajectory.target_velocity seg (t / 4)).
Proof.
  intros Hi Hseg Hle Hleast.
  pose proof (init_total_time _ _ _ _ _ Hinit) as Htt.
  destruct (queries_of_find _ _ _ _ _ Hinit t i seg) as [Hp Hv];
    [apply find_first_window; rewrite ?Htt; assumption | exact Hseg |].
  destruct (segments_are_linear _ _ _ _ _ Hinit i seg Hseg) as (a & b & ->).
  split; [|exact Hv].
  rewrite Hp, linear_pose_progress by lra.
  rewrite (progress_scale T t HT). reflexivity.
Qed.

End PolygonalCoverage.

Lemma polygonal_ends
    (start_position ar_position p0 p1 p2 p3 : vec3) (rest : list vec3) (T : R)
    (self : PolygonalTrajectory.t) :
  0 < T ->
  PolygonalTrajectory.init start_position ar_position
    (p0 :: p1 :: p2 :: p3 :: rest) T = inr self ->
  PolygonalTrajectory.target_pose self 0
  = inr (hstack start_position [0; 1; 0; 0])
  /\ PolygonalTrajectory.target_pose self T
     = inr (hstack (ar_position +: p3) [0; 1; 0; 0])
  /\ PolygonalTrajectory.target_velocity self 0 = inr [0; 0; 0; 0; 0; 0]
  /\ PolygonalTrajectory.target_velocity self T = inr [0; 0; 0; 0; 0; 0].
Proof.
  intros HT Hinit.
  pose proof Hinit as Hself. rewrite init_four in Hself. injection Hself as <-.
  assert (H4 : 0 < T / 4) by lra.
  destruct (queries_of_find _ _ _ _ _ Hinit 0 0%nat
              (LinearTrajectory.init start_position (ar_position +: p0) (T / 4)))
    as [Hp0 Hv0];
    [apply find_first_window; [lia | simpl; lra | intros j Hj; lia] | reflexivity |].
  destruct (queries_of_find _ _ _ _ _ Hinit T 3%nat
              (LinearTrajectory.init (ar_position +: p2) (ar_position +: p3) (T / 4)))
    as [Hp3 Hv3]; [|reflexivity|].
  { apply find_first_window; [lia | simpl; lra |].
    intros j Hj Hle. simpl PolygonalTrajectory.total_time in Hle.
    assert (Hj' : (j <= 2)%nat) by lia.
    apply le_INR in Hj'. simpl in Hj'. nra. }
  rewrite Hp0, Hv0, Hp3, Hv3.
  replace (0 / 4) with 0 by field.
  rewrite linear_pose_start, linear_velocity_start by exact H4.
  rewrite linear_pose_end, linear_velocity_end by exact H4.
  repeat split; reflexivity.
Qed.

(** X12: a polygonal trajectory of positive duration starts at
    [start_position] and ends at [ar_position + points[3]], at rest at
    both ends. *)
Theorem polygonal_endpoints
    (start_position ar_position p0 p1 p2 p3 : vec3) (rest : list vec3) (T : R) :
  0 < T ->
  exists self,
    PolygonalTrajectory.init start_position ar_position
      (p0 :: p1 :: p2 :: p3 :: rest) T = inr self
    /\ PolygonalTrajectory.target_pose self 0
       = inr (hstack start_position [0; 1; 0; 0])
    /\ PolygonalTrajectory.target_pose self T
       = inr (hstack (ar_position +: p3) [0; 1; 0; 0])
    /\ PolygonalTrajectory.target_velocity self 0 = inr [0; 0; 0; 0; 0; 0]
    /\ PolygonalTrajectory.target_velocity self T = inr [0; 0; 0; 0; 0; 0].
Proof.
  intros HT.
  pose proof (init_four start_position ar_position T p0 p1 p2 p3 rest) as Hinit.
  eexists. split; [exact Hinit|].
  exact (polygonal_ends _ _ _ _ _ _ _ _ _ HT Hinit).
Qed.

Lemma polygonal_endpoints_witness :
  0 < 4
  /\ exists self,
    PolygonalTrajectory.init origin origin
      (Vec3 1 0 0 :: Vec3 1 1 0 :: Vec3 0 1 0 :: Vec3 0 0 0 :: []) 4 = inr self
    /\ PolygonalTrajectory.target_pose self 0 = inr (hstack origin [0; 1; 0; 0])
    /\ PolygonalTrajectory.target_pose self 4
       = inr (hstack (origin +: Vec3 0 0 0) [0; 1; 0; 0])
    /\ PolygonalTrajectory.target_velocity self 0 = inr [0; 0; 0; 0; 0; 0]
    /\ PolygonalTrajectory.target_velocity self 4 = inr [0; 0; 0; 0; 0; 0].
Proof.
  assert (H4 : 0 < 4) by lra.
  split; [exact H4|].
  exact (polygonal_endpoints origin origin (Vec3 1 0 0) (Vec3 1 1 0) (Vec3 0 1 0)
           (Vec3 0 0 0) [] 4 H4).
Defined.

(** X13: at a time [t] of [[0, T]] a polygonal trajectory is on the
    straight segment of the window of [t], between that segment's start
    and goal, at the fraction [progress T t] of it: the fraction a
    single linear trajectory over the whole duration would have covered,
    not the fraction of the window that has elapsed. *)
Theorem polygonal_position_in_window
    (start_position ar_position : vec3) (points : list vec3) (T : R)
    (self : PolygonalTrajectory.t) (t : R) :
  PolygonalTrajectory.init start_position ar_position points T = inr self ->
  0 < T -> 0 <= t <= T ->
  exists i seg,
    (i < 4)%nat
    /\ nth_error (PolygonalTrajectory.trajectories self) i = Some seg
    /\ t <= (INR i + 1) * T / 4
    /\ (forall j, (j < i)%nat -> ~ t <= (INR j + 1) * T / 4)
    /\ 0 <= progress T t <= 1
    /\ PolygonalTrajectory.target_pose self t
       = inr (hstack (LinearTrajectory.start_position seg
                      +: progress T t
                         *: (LinearTrajectory.goal_position seg
                             -: LinearTrajectory.start_position seg))
                     [0; 1; 0; 0]).
Proof.
  intros Hinit HT Ht.
  pose proof (init_total_time _ _ _ _ _ Hinit) as Htt.
  assert (Ht' : 0 <= t <= PolygonalTrajectory.total_time self) by now rewrite Htt.
  destruct (find_in_range self t Ht') as (i & _ & Hi & Hle & Hleast).
  rewrite Htt in Hle.
  assert (Hleast' : forall j, (j < i)%nat -> ~ t <= (INR j + 1) * T / 4).
  { intros j Hj. specialize (Hleast j Hj). now rewrite Htt in Hleast. }
  destruct (init_index _ _ _ _ _ Hinit i Hi) as [seg Hseg].
  exists i, seg.
  split; [exact Hi|]. split; [exact Hseg|]. split; [exact Hle|].
  split; [exact Hleast'|]. split; [now apply progress_range|].
  exact (proj1 (polygonal_queries_in_window _ _ _ _ _ Hinit HT i seg t
                  Hi Hseg Hle Hleast')).
Qed.

Lemma polygonal_position_in_window_witness :
  PolygonalTrajectory.init origin origin square 4 = inr square_trajectory
  /\ 0 < 4 /\ 0 <= 2 <= 4
  /\ exists i seg,
    (i < 4)%nat
    /\ nth_error (PolygonalTrajectory.trajectories square_trajectory) i = Some seg
    /\ 2 <= (INR i + 1) * 4 / 4
    /\ (forall j, (j < i)%nat -> ~ 2 <= (INR j + 1) * 4 / 4)
    /\ 0 <= progress 4 2 <= 1
    /\ PolygonalTrajectory.target_pose square_trajectory 2
       = inr (hstack (LinearTrajectory.start_position seg
                      +: progress 4 2
                         *: (LinearTrajectory.goal_position seg
                             -: LinearTrajectory.start_position seg))
                     [0; 1; 0; 0]).
Proof.
  assert (Hinit : PolygonalTrajectory.init origin origin square 4
                  = inr square_trajectory) by reflexivity.
  assert (H4 : 0 < 4) by lra.
  assert (Ht : 0 <= 2 <= 4) by lra.
  split; [exact Hinit|]. split; [exact H4|]. split; [exact Ht|].
  exact (polygonal_position_in_window origin origin square 4 square_trajectory 2
           Hinit H4 Ht).
Defined.

(** X14: at the end of its first window, [t = T/4], a polygonal
    trajectory has covered one eighth of its first segment: it is at
    [start + ((ar_position + points[0]) - start)/8], not at the first
    waypoint. *)
Theorem polygonal_first_window_end
    (start_position ar_position p0 p1 p2 p3 : vec3) (rest : list vec3) (T : R) :
  0 < T ->
  exists self,
    PolygonalTrajectory.init start_position ar_position
      (p0 :: p1 :: p2 :: p3 :: rest) T = inr self
    /\ PolygonalTrajectory.target_pose self (T / 4)
       = inr (hstack (start_position
                      +: / 8 *: ((ar_position +: p0) -: start_position))
                     [0; 1; 0; 0]).
Proof.
  intros HT.
  pose proof (init_four start_position ar_position T p0 p1 p2 p3 rest) as Hinit.
  eexists. split; [exact Hinit|].
  destruct (polygonal_queries_in_window _ _ _ _ _ Hinit HT 0%nat
              (LinearTrajectory.init start_position (ar_position +: p0) (T / 4))
              (T / 4)) as [Hp _];
    [lia | reflexivity | simpl; lra | intros j Hj; lia |].
  rewrite Hp. simpl LinearTrajectory.start_position.
  simpl LinearTrajectory.goal_position.
  assert (Hprog : progress T (T / 4) = / 8).
  { unfold progress.
    destruct (Rle_dec (T / 4) (T / 2)) as [_|Hn]; [field; lra|].
    exfalso. apply Hn. lra. }
  rewrite Hprog. reflexivity.
Qed.

Lemma polygonal_first_window_end_witness :
  0 < 4
  /\ exists self,
    PolygonalTrajectory.init origin origin
      (Vec3 1 0 0 :: Vec3 1 1 0 :: Vec3 0 1 0 :: Vec3 0 0 0 :: []) 4 = inr self
    /\ PolygonalTrajectory.target_pose self (4 / 4)
       = inr (hstack (origin +: / 8 *: ((origin +: Vec3 1 0 0) -: origin))
                     [0; 1; 0; 0]).
Proof.
  assert (H4 : 0 < 4) by lra.
  split; [exact H4|].
  exact (polygonal_first_window_end origin origin (Vec3 1 0 0) (Vec3 1 1 0)
           (Vec3 0 1 0) (Vec3 0 0 0) [] 4 H4).
Defined.

(** ** Sampling a trajectory: [display_trajectory] *)

Lemma linspace_length (start stop : R) (num : nat) :
  length (linspace start stop num) = num.
Proof.
  destruct num as [|[|n]]; try reflexivity.
  unfold linspace. rewrite length_app, length_map, length_seq. simpl. lia.
Qed.

Lemma linspace_within (start stop : R) (num : nat) :
  start <= stop ->
  Forall (fun t => start <= t <= stop) (linspace start stop num).
Proof.
  intros Hle. destruct num as [|[|n]].
  - constructor.
  - constructor; [lra | constructor].
  - unfold linspace. apply Forall_app. split.
    + apply Forall_forall. intros t Hin.
      apply in_map_iff in Hin as (i & <- & Hi). apply in_seq in Hi.
      assert (Hdiv : 0 < INR (S n)) by (apply lt_0_INR; lia).
      assert (Hi0 : 0 <= INR i) by apply pos_INR.
      assert (Hi1 : INR i <= INR (S n)) by (apply le_INR; lia).
      assert (Hfrac : 0 <= INR i / INR (S n) <= 1).
      { split.
        - apply Rmult_le_pos; [exact Hi0 | left; now apply Rinv_0_lt_compat].
        - apply Rmult_le_reg_r with (r := INR (S n)); [exact Hdiv|].
          replace (INR i / INR (S n) * INR (S n)) with (INR i) by (field; lra).
          lra. }
      replace (INR i * ((stop - start) / INR (S n)) + start)
        with (start + INR i / INR (S n) * (stop - start)) by (field; lra).
      nra.
    + constructor; [lra | constructor].
Qed.

Lemma linspace_ends (start stop : R) (num : nat) :
  (2 <= num)%nat ->
  hd 0 (linspace start stop num) = start
  /\ last (linspace start stop num) 0 = stop.
Proof.
  intros Hn. destruct num as [|[|n]]; try lia.
  unfold linspace. split.
  - simpl. ring.
  - apply last_last.
Qed.

Lemma comprehension_total {A B : Type} (f : A -> result B) (l : list A) :
  (forall x, In x l -> exists y, f x = inr y) ->
  exists ys, comprehension f l = inr ys /\ Forall2 (fun x y => f x = inr y) l ys.
Proof.
  induction l as [|x l IH]; intros Hf.
  - exists []. split; [reflexivity | constructor].
  - destruct (Hf x (or_introl eq_refl)) as [y Hy].
    destruct IH as (ys & Hys & Hall); [intros x' Hx'; apply Hf; now right|].
    exists (y :: ys). split.
    + simpl. rewrite Hy. simpl. rewrite Hys. reflexivity.
    + now constructor.
Qed.

(** The queries of a constructed trajectory return a pose of seven
    numbers and a twist of six. *)
Lemma constructed_queries (self : Trajectory.t) (t : R) :
  constructed self ->
  exists pose twist,
    Trajectory.target_pose self t = inr pose /\ length pose = 7%nat
    /\ Trajectory.target_velocity self t = inr twist /\ length twist = 6%nat.
Proof.
  intros [s g T | c r T self' Hinit | s ar points T self' Hinit].
  - eexists _, _. repeat split; reflexivity.
  - apply circular_init_inv in Hinit as [_ ->].
    eexists _, _. repeat split; reflexivity.
  - destruct (queries_total _ _ _ _ _ Hinit t) as (i & seg & _ & Hseg & Hp & Hv).
    destruct (segments_are_linear _ _ _ _ _ Hinit i seg Hseg) as (a & b & ->).
    simpl. rewrite Hp, Hv. eexists _, _. repeat split; reflexivity.
Qed.

(** X15: the sampling times of [display_trajectory] are [num_waypoints]
    in number and, for a non-negative duration, all inside
    [[0, total_time]]; from two waypoints on, the first is 0 and the
    last is [total_time]. *)
Theorem sampling_times_within_duration (self : Trajectory.t) (num_waypoints : nat) :
  0 <= Trajectory.total_time self ->
  length (Trajectory.times self num_waypoints) = num_waypoints
  /\ Forall (fun t => 0 <= t <= Trajectory.total_time self)
            (Trajectory.times self num_waypoints)
  /\ ((2 <= num_waypoints)%nat ->
      hd 0 (Trajectory.times self num_waypoints) = 0
      /\ last (Trajectory.times self num_waypoints) 0 = Trajectory.total_time self).
Proof.
  intros HT. unfold Trajectory.times.
  split; [apply linspace_length|]. split; [now apply linspace_within|].
  apply linspace_ends.
Qed.

Lemma sampling_times_within_duration_witness :
  0 <= Trajectory.total_time
         (Trajectory.Linear (LinearTrajectory.init origin (Vec3 1 0 0) 3))
  /\ length (Trajectory.times
               (Trajectory.Linear (LinearTrajectory.init origin (Vec3 1 0 0) 3)) 10)
     = 10%nat
  /\ Forall (fun t => 0 <= t <= Trajectory.total_time
                         (Trajectory.Linear (LinearTrajectory.init origin (Vec3 1 0 0) 3)))
            (Trajectory.times
               (Trajectory.Linear (LinearTrajectory.init origin (Vec3 1 0 0) 3)) 10)
  /\ ((2 <= 10)%nat ->
      hd 0 (Trajectory.times
              (Trajectory.Linear (LinearTrajectory.init origin (Vec3 1 0 0) 3)) 10) = 0
      /\ last (Trajectory.times
                 (Trajectory.Linear (LinearTrajectory.init origin (Vec3 1 0 0) 3)) 10) 0
         = Trajectory.total_time
             (Trajectory.Linear (LinearTrajectory.init origin (Vec3 1 0 0) 3))).
Proof.
  assert (H3 : 0 <= Trajectory.total_time
                      (Trajectory.Linear (LinearTrajectory.init origin (Vec3 1 0 0) 3)))
    by (simpl; lra).
  split; [exact H3|].
  exact (sampling_times_within_duration
           (Trajectory.Linear (LinearTrajectory.init origin (Vec3 1 0 0) 3)) 10 H3).
Defined.

Lemma comprehension_length {A B : Type} (f : A -> result B) (l : list A)
    (ys : list B) :
  comprehension f l = inr ys -> length ys = length l.
Proof.
  revert ys. induction l as [|x l IH]; simpl; intros ys.
  - intros [= <-]. reflexivity.
  - destruct (f x) as [e|y]; simpl; [discriminate|].
    destruct (comprehension f l) as [e|ys']; simpl; [discriminate|].
    intros [= <-]. simpl. now rewrite (IH ys').
Qed.

Lemma comprehension_map {A B : Type} (f : A -> result B) (g : A -> B)
    (l : list A) :
  (forall x, f x = inr (g x)) -> comprehension f l = inr (map g l).
Proof.
  intros Hfg. induction l as [|x l IH]; simpl; [reflexivity|].
  rewrite Hfg. simpl. rewrite IH. reflexivity.
Qed.

Lemma sampled_rows (self : Trajectory.t) (query : Trajectory.t -> R -> result (list R))
    (num_waypoints : nat) :
  (forall t, exists v, query self t = inr v /\ (3 <= length v)%nat) ->
  (1 <= num_waypoints)%nat ->
  exists rows,
    cbind (lift (comprehension
                   (fun t => v <- query self t ;; ret (firstn 3 v))
                   (Trajectory.times self num_waypoints)))
          vstack = inr rows
    /\ length rows = num_waypoints
    /\ Forall (fun row => length row = 3%nat) rows.
Proof.
  intros Hq Hn.
  destruct (comprehension_total
              (fun t => v <- query self t ;; ret (firstn 3 v))
              (Trajectory.times self num_waypoints)) as (rows & Hrows & Hall).
  { intros t _. destruct (Hq t) as (v & Hv & _). rewrite Hv. unfold bind, ret. eauto. }
  pose proof (comprehension_length _ _ _ Hrows) as Hlen.
  unfold Trajectory.times in Hlen. rewrite linspace_length in Hlen.
  exists rows. rewrite Hrows. simpl.
  split; [|split; [exact Hlen|]].
  - destruct rows; [simpl in Hlen; lia | reflexivity].
  - clear Hrows Hlen. induction Hall as [|t row ts rows' Hrow _ IH]; constructor.
    + destruct (Hq t) as (v & Hv & Hlen). rewrite Hv in Hrow.
      unfold bind, ret in Hrow. injection Hrow as Hrow.
      change (firstn 3 v = row) in Hrow.
      rewrite <- Hrow, length_firstn. lia.
    + exact IH.
Qed.

(** X16: on a constructed trajectory the sampling of
    [display_trajectory] raises [ValueError] when asked for no waypoint
    (the stack of no row) and otherwise yields [num_waypoints] positions
    and as many velocities, each of three coordinates. *)
Theorem sampling_of_constructed (self : Trajectory.t) :
  constructed self ->
  Trajectory.target_positions self 0 = inl ValueError
  /\ Trajectory.target_velocities self 0 = inl ValueError
  /\ forall num_waypoints,
      (1 <= num_waypoints)%nat ->
      exists positions velocities,
        Trajectory.target_positions self num_waypoints = inr positions
        /\ Trajectory.target_velocities self num_waypoints = inr velocities
        /\ length positions = num_waypoints
        /\ length velocities = num_waypoints
        /\ Forall (fun row => length row = 3%nat) positions
        /\ Forall (fun row => length row = 3%nat) velocities.
Proof.
  intros Hc.
  split; [reflexivity|]. split; [reflexivity|].
  intros n Hn.
  destruct (sampled_rows self Trajectory.target_pose n) as (ps & Hps & Hpl & Hpw);
    [|exact Hn|].
  { intros t. destruct (constructed_queries self t Hc) as (p & _ & Hp & Hlen & _).
    exists p. split; [exact Hp | lia]. }
  destruct (sampled_rows self Trajectory.target_velocity n) as (vs & Hvs & Hvl & Hvw);
    [|exact Hn|].
  { intros t. destruct (constructed_queries self t Hc) as (_ & v & _ & _ & Hv & Hlen).
    exists v. split; [exact Hv | lia]. }
  exists ps, vs. repeat split; assumption.
Qed.

Lemma sampling_of_constructed_witness :
  constructed (Trajectory.Polygonal square_trajectory)
  /\ Trajectory.target_positions (Trajectory.Polygonal square_trajectory) 0
     = inl ValueError
  /\ Trajectory.target_velocities (Trajectory.Polygonal square_trajectory) 0
     = inl ValueError
  /\ forall num_waypoints,
      (1 <= num_waypoints)%nat ->
      exists positions velocities,
        Trajectory.target_positions (Trajectory.Polygonal square_trajectory)
          num_waypoints = inr positions
        /\ Trajectory.target_velocities (Trajectory.Polygonal square_trajectory)
             num_waypoints = inr velocities
        /\ length positions = num_waypoints
        /\ length velocities = num_waypoints
        /\ Forall (fun row => length row = 3%nat) positions
        /\ Forall (fun row => length row = 3%nat) velocities.
Proof.
  assert (Hc : constructed (Trajectory.Polygonal square_trajectory)).
  { apply (constructed_polygonal origin origin square 4). reflexivity. }
  split; [exact Hc|].
  exact (sampling_of_constructed (Trajectory.Polygonal square_trajectory) Hc).
Defined.

(** X17: sampled at two waypoints or more, a linear trajectory of
    positive duration gives [start_position] as first row and
    [goal_position] as last row of the positions. *)
Theorem sampling_linear_ends
    (start_position goal_position : vec3) (T : R) (num_waypoints : nat) :
  0 < T -> (2 <= num_waypoints)%nat ->
  exists positions,
    Trajectory.target_positions
      (Trajectory.Linear (LinearTrajectory.init start_position goal_position T))
      num_waypoints = inr positions
    /\ length positions = num_waypoints
    /\ hd [] positions = to_list start_position
    /\ last positions [] = to_list goal_position.
Proof.
  intros HT Hn.
  set (self := LinearTrajectory.init start_position goal_position T).
  set (row := fun t => firstn 3 (LinearTrajectory.target_pose self t)).
  assert (Hrows :
    comprehension
      (fun t => pose <- Trajectory.target_pose (Trajectory.Linear self) t ;;
                ret (firstn 3 pose))
      (Trajectory.times (Trajectory.Linear self) num_waypoints)
    = inr (map row (Trajectory.times (Trajectory.Linear self) num_waypoints))).
  { apply comprehension_map. intros t. reflexivity. }
  unfold Trajectory.target_positions. rewrite Hrows. simpl lift. unfold cbind.
  unfold Trajectory.times. simpl Trajectory.total_time.
  destruct num_waypoints as [|[|n]]; try lia.
  set (step := (T - 0) / INR (S n)).
  assert (Hshape :
    linspace 0 T (S (S n))
    = (0 :: map (fun i => INR i * step + 0) (seq 1 n)) ++ [T]).
  { unfold linspace. fold step. simpl seq. simpl map.
    replace (0 * step + 0) with 0 by ring. reflexivity. }
  rewrite Hshape, map_app.
  change (map row [T]) with [row T].
  eexists. split; [reflexivity|]. split; [|split].
  - rewrite length_app, length_map. simpl. rewrite length_map, length_seq. lia.
  - change (hd [] (map row (0 :: map (fun i => INR i * step + 0) (seq 1 n))
                   ++ [row T])) with (row 0).
    unfold row, self. rewrite linear_pose_start by exact HT. reflexivity.
  - rewrite last_last. unfold row, self.
    rewrite linear_pose_end by exact HT. reflexivity.
Qed.

Lemma sampling_linear_ends_witness :
  0 < 3 /\ (2 <= 10)%nat
  /\ exists positions,
    Trajectory.target_positions
      (Trajectory.Linear (LinearTrajectory.init origin (Vec3 1 0 0) 3)) 10
    = inr positions
    /\ length positions = 10%nat
    /\ hd [] positions = to_list origin
    /\ last positions [] = to_list (Vec3 1 0 0).
Proof.
  assert (H3 : 0 < 3) by lra.
  assert (Hn : (2 <= 10)%nat) by lia.
  split; [exact H3|]. split; [exact Hn|].
  exact (sampling_linear_ends origin (Vec3 1 0 0) 3 10 H3 Hn).
Defined.

(** ** Joint commands: [target_joint_velocities] *)

Lemma np_sub_same_length (a b : list R) :
  length a = length b ->
  np_sub a b = inr (map (fun xy => fst xy - snd xy) (combine a b)).
Proof.
  intros Hlen. unfold np_sub. now rewrite Hlen, Nat.eqb_refl.
Qed.

Lemma np_sub_self (a : list R) : np_sub a a = inr (repeat 0 (length a)).
Proof.
  rewrite np_sub_same_length by reflexivity. f_equal.
  induction a as [|x a IH]; simpl; [reflexivity|].
  rewrite IH. f_equal. ring.
Qed.

(** X18: on a constructed trajectory [target_joint_velocities] asks the
    solver for the position part of the pose only.  It raises
    [TypeError] when the solver finds no solution; when the solver
    answers with as many joints as the current ones, it returns their
    differences, which are all zero when the arm is already at the
    solution. *)
Theorem joint_velocities_of_constructed
    (self : Trajectory.t) (inverse_kinematics : list R -> option (list R))
    (current_joint_positions : list R) (time : R) :
  constructed self ->
  exists pose,
    Trajectory.target_pose self time = inr pose
    /\ (inverse_kinematics (position pose) = None ->
        Trajectory.target_joint_velocities self inverse_kinematics
          current_joint_positions time = inl TypeError)
    /\ (forall target_joint_positions,
         inverse_kinematics (position pose) = Some target_joint_positions ->
         (length target_joint_positions = length current_joint_positions ->
          Trajectory.target_joint_velocities self inverse_kinematics
            current_joint_positions time
          = inr (map (fun qc => fst qc - snd qc)
                     (combine target_joint_positions current_joint_positions)))
         /\ Trajectory.target_joint_velocities self inverse_kinematics
              target_joint_positions time
            = inr (repeat 0 (length target_joint_positions))).
Proof.
  intros Hc.
  destruct (constructed_queries self time Hc) as (pose & _ & Hp & _).
  exists pose. split; [exact Hp|].
  unfold Trajectory.target_joint_velocities, position. rewrite Hp. simpl lift.
  unfold cbind. split.
  - intros ->. reflexivity.
  - intros q ->. split.
    + apply np_sub_same_length.
    + apply np_sub_self.
Qed.

Lemma joint_velocities_of_constructed_witness :
  constructed (Trajectory.Linear (LinearTrajectory.init origin (Vec3 1 0 0) 3))
  /\ exists pose,
    Trajectory.target_pose
      (Trajectory.Linear (LinearTrajectory.init origin (Vec3 1 0 0) 3)) 1 = inr pose
    /\ ((fun p : list R => Some p) (position pose) = None ->
        Trajectory.target_joint_velocities
          (Trajectory.Linear (LinearTrajectory.init origin (Vec3 1 0 0) 3))
          (fun p => Some p) [0; 0; 0] 1 = inl TypeError)
    /\ (forall target_joint_positions,
         (fun p : list R => Some p) (position pose) = Some target_joint_positions ->
         (length target_joint_positions = length [0; 0; 0] ->
          Trajectory.target_joint_velocities
            (Trajectory.Linear (LinearTrajectory.init origin (Vec3 1 0 0) 3))
            (fun p => Some p) [0; 0; 0] 1
          = inr (map (fun qc => fst qc - snd qc)
                     (combine target_joint_positions [0; 0; 0])))
         /\ Trajectory.target_joint_velocities
              (Trajectory.Linear (LinearTrajectory.init origin (Vec3 1 0 0) 3))
              (fun p => Some p) target_joint_positions 1
            = inr (repeat 0 (length target_joint_positions))).
Proof.
  assert (Hc : constructed
                 (Trajectory.Linear (LinearTrajectory.init origin (Vec3 1 0 0) 3)))
    by constructor.
  split; [exact Hc|].
  exact (joint_velocities_of_constructed
           (Trajectory.Linear (LinearTrajectory.init origin (Vec3 1 0 0) 3))
           (fun p => Some p) [0; 0; 0] 1 Hc).
Defined.

(** ** Choosing the trajectory: [get_trajectory] *)

Section GetTrajectory.

Import String.

Variables (current_position tag_pos : vec3).

Let target_position := Vec3 (vx tag_pos) (vy tag_pos) 0.3.


Lemma task_trajectory_circle :
  exists self,
    CircularTrajectory.init target_position 0.1 7 = inr self
    /\ FollowAr.task_trajectory "circle" current_position target_position
       = inr (Trajectory.Circular self).
Proof.
  assert (H7 : (7 : R) <> 0) by lra.
  pose proof (circular_init_ok target_position 0.1 7 H7) as Hinit.
  eexists. split; [exact Hinit|].
  unfold FollowAr.task_trajectory. simpl String.eqb. cbv iota.
  rewrite Hinit. reflexivity.
Qed.

Lemma task_trajectory_polygon :
  exists self,
    PolygonalTrajectory.init current_position target_position FollowAr.points 12
    = inr self
    /\ FollowAr.task_trajectory "polygon" current_position target_position
       = inr (Trajectory.Polygonal self).
Proof.
  eexists. split; reflexivity.
Qed.



End GetTrajectory.

Section GetTrajectoryProperties.

Import String.



(** X20: when the lookup of the gripper tip succeeds, the trajectory
    that [get_trajectory] hands to the conversion aims at the height 0.3
    above the first two coordinates of the tag, whatever the height of
    the tag: the line goes from the current position to that point, the
    circle stays at that height at the distance 0.1 from it, and the
    polygon goes from the current position to that point. *)
Theorem get_trajectory_target
    (current_position tag_pos : vec3) (num_way : Z) (controller_name : string) :
  let target := Vec3 (vx tag_pos) (vy tag_pos) 0.3 in
  let handed trajectory task :=
    forall (B : Type) (to_robot_trajectory : Trajectory.t -> Z -> bool -> B),
      snd (FollowAr.get_trajectory to_robot_trajectory (Some current_position)
             tag_pos task num_way controller_name)
      = inr (to_robot_trajectory trajectory num_way
               (negb (String.eqb controller_name "workspace"))) in
  (exists trajectory,
      handed trajectory "line"%string
      /\ Trajectory.target_pose trajectory 0
         = inr (hstack current_position [0; 1; 0; 0])
      /\ Trajectory.target_pose trajectory 3 = inr (hstack target [0; 1; 0; 0]))
  /\ (exists trajectory,
      handed trajectory "circle"%string
      /\ forall time,
          exists pose,
            Trajectory.target_pose trajectory time = inr pose
            /\ vz (pos3 pose) = 0.3
            /\ (vx (pos3 pose) - vx tag_pos) ^ 2 + (vy (pos3 pose) - vy tag_pos) ^ 2
               = 0.1 ^ 2)
  /\ (exists trajectory pose,
      handed trajectory "polygon"%string
      /\ Trajectory.target_pose trajectory 0
         = inr (hstack current_position [0; 1; 0; 0])
      /\ Trajectory.target_pose trajectory 12 = inr pose
      /\ pos3 pose = target).
Proof.
  intros target handed. split; [|split].
  - eexists. split; [intros B conv; reflexivity|].
    assert (H3 : 0 < 3) by lra.
    simpl Trajectory.target_pose. unfold ret.
    rewrite linear_pose_start, linear_pose_end by exact H3.
    split; reflexivity.
  - destruct (task_trajectory_circle current_position tag_pos)
      as (self & Hinit & Hget).
    exists (Trajectory.Circular self). split.
    + intros B conv. unfold FollowAr.get_trajectory. now rewrite Hget.
    + intros time. eexists. split; [reflexivity|].
      rewrite (circular_pose_of_theta _ _ _ _ Hinit).
      unfold pos3, hstack, to_list, vadd, smul. simpl.
      pose proof (sin2_cos2_pow (CircularTrajectory.theta self time)) as Hsc.
      simpl in Hsc. split; [ring | nra].
  - destruct (task_trajectory_polygon current_position tag_pos)
      as (self & Hinit & Hget).
    assert (H12 : 0 < 12) by lra.
    destruct (polygonal_ends _ _ _ _ _ _ _ _ _ H12 Hinit) as (Hp0 & HpT & _).
    exists (Trajectory.Polygonal self). eexists. split.
    + intros B conv. unfold FollowAr.get_trajectory. now rewrite Hget.
    + split; [exact Hp0|]. split; [exact HpT|].
      unfold pos3, hstack, to_list, vadd, target. simpl. f_equal; ring.
Qed.

End GetTrajectoryProperties.
